(** * WipeSure AI residue analyzer

    A shallow embedding of [src/ai_service.py] and the properties of its
    scoring routines and HTTP handlers.

    Conventions of the embedding.

    - Python floats are exact rationals ([Q]).  The service only adds,
      multiplies, compares against decimal thresholds and rounds to two
      decimals.  Exact and binary64 arithmetic differ by less than
      10^-13 before the rounding, so at a rounding tie the interpreter
      can return the neighbouring hundredth of the one computed here.
      The properties below are therefore about ranges, the grid of
      hundredths, branch selection and distances with a margin, never
      about which of two neighbouring hundredths a tie yields
      ([round_2_stable]).  End points of [random.uniform] are
      cross-checked in IEEE binary64 ([uniform_f]).
    - Values that come from or go to JSON are [json] values; a Python
      [dict] is an association list searched from the front.
    - Effects (the random generator, [time.sleep], [time.time]) act on an
      explicit [world]; a computation returns an [outcome] (a value or a
      raised exception) together with the world it leaves behind, so the
      effects performed before an exception are kept. *)

From Stdlib Require Import ZArith QArith Qround Qminmax Lqa Lia.
From Stdlib Require Import Bool String List.
From Stdlib Require Import Floats.
Import ListNotations.

Local Open Scope string_scope.
Local Open Scope Z_scope.
Local Open Scope Q_scope.

(** ** JSON values and the Python operations used on them *)

#[local] Set Warnings "-register-all".

Inductive json : Type :=
| JNull
| JBool (b : bool)
| JInt (n : Z)
| JFloat (x : Q)
| JStr (s : string)
| JList (items : list json)
| JObj (fields : list (string * json)).

(** Exceptions the handlers can meet; each carries [str(e)]. *)
Inductive exn : Type :=
| AttributeError (msg : string)
| TypeError (msg : string)
| IndexError (msg : string)
| BadRequest (msg : string).

Definition str_exn (e : exn) : string :=
  match e with
  | AttributeError msg | TypeError msg | IndexError msg | BadRequest msg => msg
  end.

Inductive outcome (A : Type) : Type :=
| Ok (a : A)
| Raise (e : exn).
Arguments Ok {A} a.
Arguments Raise {A} e.

Module Py.

(** [type(v).__name__] *)
Definition type_name (v : json) : string :=
  match v with
  | JNull => "NoneType"
  | JBool _ => "bool"
  | JInt _ => "int"
  | JFloat _ => "float"
  | JStr _ => "str"
  | JList _ => "list"
  | JObj _ => "dict"
  end.

(** [bool(v)]: the values Python's [not] treats as false are [None],
    [False], zero, and the empty string, list and dict. *)
Definition truthy (v : json) : bool :=
  match v with
  | JNull => false
  | JBool b => b
  | JInt n => negb (n =? 0)%Z
  | JFloat x => negb (Qeq_bool x 0)
  | JStr s => negb (String.eqb s "")
  | JList items => match items with [] => false | _ => true end
  | JObj fields => match fields with [] => false | _ => true end
  end.

Fixpoint assoc (key : string) (fields : list (string * json)) : option json :=
  match fields with
  | [] => None
  | (k, v) :: rest => if String.eqb key k then Some v else assoc key rest
  end.

(** [data.get(key, default)]; only a dict has the method. *)
Definition get (data : json) (key : string) (default : json) : outcome json :=
  match data with
  | JObj fields =>
      Ok (match assoc key fields with Some v => v | None => default end)
  | _ =>
      Raise (AttributeError
               ("'" ++ type_name data ++ "' object has no attribute 'get'"))
  end.

(** What one run of the interpreter fixes about [hash]: the seeded
    string hash, and the hashes of floats and of [None]. *)
Record process : Type := mkProcess {
  str_hash : string -> Z;
  float_hash : Q -> Z;
  none_hash : Z
}.

(** [hash(n)] for an integer: reduction modulo 2^61 - 1 keeping the
    sign, with -1 avoided. *)
Definition int_hash (n : Z) : Z :=
  let h := (Z.sgn n * (Z.abs n mod (2 ^ 61 - 1)))%Z in
  if (h =? -1)%Z then (-2)%Z else h.

(** [hash(v)]; lists and dicts are unhashable. *)
Definition hash (p : process) (v : json) : outcome Z :=
  match v with
  | JNull => Ok (none_hash p)
  | JBool b => Ok (if b then 1 else 0)%Z
  | JInt n => Ok (int_hash n)
  | JFloat x => Ok (float_hash p x)
  | JStr s => Ok (str_hash p s)
  | JList _ | JObj _ =>
      Raise (TypeError ("unhashable type: '" ++ type_name v ++ "'"))
  end.

(** [min(a, b)]: the first argument unless the second is smaller. *)
Definition min (a b : Q) : Q := if Qle_bool a b then a else b.

(** Rounding to the nearest integer, ties to the even one. *)
Definition round_half_even (x : Q) : Z :=
  let f := Qfloor x in
  match Qcompare (x - inject_Z f) (1 # 2) with
  | Lt => f
  | Gt => (f + 1)%Z
  | Eq => if Z.even f then f else (f + 1)%Z
  end.

(** [round(x, ndigits)] *)
Definition round (x : Q) (ndigits : Z) : Q :=
  let scale := inject_Z (10 ^ ndigits) in
  inject_Z (round_half_even (x * scale)) / scale.

End Py.

(** ** The world and the computations over it *)

Record world : Type := mkWorld {
  tape : nat -> Z;      (* the raw words the random generator will yield *)
  cursor : nat;         (* how many of them have been consumed *)
  clock : Q;            (* seconds since the epoch *)
  slept : list Q        (* the sleeps performed so far, latest first *)
}.

Definition M (A : Type) : Type := world -> outcome A * world.

Definition ret {A} (a : A) : M A := fun w => (Ok a, w).

Definition raise {A} (e : exn) : M A := fun w => (Raise e, w).

Definition bind {A B} (c : M A) (k : A -> M B) : M B :=
  fun w =>
    match c w with
    | (Ok a, w') => k a w'
    | (Raise e, w') => (Raise e, w')
    end.

Definition lift {A} (o : outcome A) : M A := fun w => (o, w).

(** [try: c  except Exception as e: handler e] *)
Definition try_except {A} (c : M A) (handler : exn -> M A) : M A :=
  fun w =>
    match c w with
    | (Ok a, w') => (Ok a, w')
    | (Raise e, w') => handler e w'
    end.

Declare Scope monad_scope.
Delimit Scope monad_scope with monad.
Notation "x <- c ;; k" := (bind c (fun x => k))
  (at level 61, c at next level, right associativity) : monad_scope.
Notation "c ;;; k" := (bind c (fun _ => k))
  (at level 61, right associativity) : monad_scope.
Local Open Scope monad_scope.

(** [for x in xs: acc = body x acc] *)
Fixpoint for_each {A S} (xs : list A) (body : A -> S -> M S) (acc : S) : M S :=
  match xs with
  | [] => ret acc
  | x :: rest => acc' <- body x acc ;; for_each rest body acc'
  end.

(** [range(n)] *)
Definition range (n : nat) : list Z := map Z.of_nat (seq 0 n).

(** ** The modules [random] and [time] *)

Module Random.

Definition advance (w : world) : world :=
  mkWorld (tape w) (S (cursor w)) (clock w) (slept w).

(** The next raw word of the generator. *)
Definition next : M Z := fun w => (Ok (tape w (cursor w)), advance w).

(** [random.random()]: 53 random bits over 2^53, so a float in [0, 1). *)
Definition random : M Q :=
  r <- next ;; ret (inject_Z (r mod 2 ^ 53) / inject_Z (2 ^ 53)).

(** [random.uniform(a, b)] is [a + (b - a) * random()]. *)
Definition uniform (a b : Q) : M Q :=
  r <- random ;; ret (a + (b - a) * r).

(** [_randbelow(n)] for [n > 0]: an integer in [0, n); the rejection
    sampling of the library is collapsed to one raw word reduced modulo
    [n]. *)
Definition randbelow (n : Z) : M Z :=
  r <- next ;; ret (r mod n)%Z.

(** [random.randint(a, b)] is [randrange(a, b + 1)]. *)
Definition randint (a b : Z) : M Z :=
  k <- randbelow (b - a + 1) ;; ret (a + k)%Z.

(** [random.choice(seq)] *)
Definition choice {A} (seq : list A) : M A :=
  match seq with
  | [] => raise (IndexError "Cannot choose from an empty sequence")
  | x :: _ =>
      i <- randbelow (Z.of_nat (length seq)) ;;
      ret (nth (Z.to_nat i) seq x)
  end.

End Random.

Module Time.

(** [time.sleep(d)]: the call is recorded and the clock moves on. *)
Definition after_sleep (d : Q) (w : world) : world :=
  mkWorld (tape w) (cursor w) (clock w + d) (d :: slept w).

Definition sleep (d : Q) : M unit := fun w => (Ok tt, after_sleep d w).

(** [time.time()] *)
Definition time : M Q := fun w => (Ok (clock w), w).

End Time.

(** [random.uniform] on binary64 floats, to check end points in the
    arithmetic the interpreter really uses. *)
Definition uniform_f (a b r : float) : float := (a + (b - a) * r)%float.

(** ** class ResidueAnalyzer *)

Inductive residue_status : Type :=
| CLEAN
| MOSTLY_CLEAN
| SOME_RESIDUE
| HIGH_RESIDUE.

(** The string each status stands for in the source. *)
Definition status_label (s : residue_status) : string :=
  match s with
  | CLEAN => "CLEAN"
  | MOSTLY_CLEAN => "MOSTLY_CLEAN"
  | SOME_RESIDUE => "SOME_RESIDUE"
  | HIGH_RESIDUE => "HIGH_RESIDUE"
  end.

Module ResidueAnalyzer.
Section Analyzer.

Variable proc : Py.process.

(** Set by [__init__]; no method reads it. *)
Definition entropy_threshold : Q := 99.5.

(** The device-specific variation: [hash(device_id) % 100 / 100.0]. *)
Definition device_factor (h : Z) : Q := inject_Z (h mod 100) / 100.0.

Definition calculate_entropy (device_id : json) : M Q :=
  base_entropy <- Random.uniform 95.0 100.0 ;;
  h <- lift (Py.hash proc device_id) ;;
  let entropy := Py.min 100.0 (base_entropy + device_factor h) in
  ret (Py.round entropy 2).

Definition detect_recoverable_files (entropy_score : Q) : M Z :=
  if Qle_bool 99.8 entropy_score then ret 0%Z
  else if Qle_bool 99.0 entropy_score then Random.randint 0 2
  else if Qle_bool 95.0 entropy_score then Random.randint 2 10
  else Random.randint 10 50.

Definition determine_residue_status
    (entropy_score : Q) (recoverable_files : Z) : residue_status :=
  if Qle_bool 99.8 entropy_score && (recoverable_files =? 0)%Z then CLEAN
  else if Qle_bool 99.0 entropy_score && (recoverable_files <=? 2)%Z
       then MOSTLY_CLEAN
  else if Qle_bool 95.0 entropy_score then SOME_RESIDUE
  else HIGH_RESIDUE.

Definition analyze_device (job_id device_id : json) : M json :=
  d <- Random.uniform 2 5 ;;
  Time.sleep d ;;;
  entropy_score <- calculate_entropy device_id ;;
  recoverable_files <- detect_recoverable_files entropy_score ;;
  let residue_status :=
    determine_residue_status entropy_score recoverable_files in
  sectors_analyzed <- Random.randint 1000000 5000000 ;;
  data_patterns_found <- Random.randint 0 100 ;;
  encryption_residue <- Random.choice [true; false] ;;
  metadata_traces <- Random.randint 0 50 ;;
  file_signature_remnants <- Random.randint 0 20 ;;
  let analysis_details :=
    JObj [ ("sectors_analyzed", JInt sectors_analyzed);
           ("data_patterns_found", JInt data_patterns_found);
           ("encryption_residue", JBool encryption_residue);
           ("metadata_traces", JInt metadata_traces);
           ("file_signature_remnants", JInt file_signature_remnants) ] in
  timestamp <- Time.time ;;
  confidence_level <- Random.uniform 95.0 99.9 ;;
  ret (JObj [ ("job_id", job_id);
              ("device_id", device_id);
              ("entropy_score", JFloat entropy_score);
              ("recoverable_files", JInt recoverable_files);
              ("residue_status", JStr (status_label residue_status));
              ("analysis_details", analysis_details);
              ("timestamp", JFloat timestamp);
              ("confidence_level", JFloat confidence_level) ]).

End Analyzer.
End ResidueAnalyzer.

(** ** The HTTP handlers *)

(** The body of a request as [request.get_json()] sees it: it either
    decodes to a JSON value or the call raises. *)
Inductive request : Type :=
| Undecodable (why : string)
| Body (data : json).

Record response : Type := mkResponse {
  status_code : Z;
  payload : json
}.

Module Service.
Section Handlers.

Variable proc : Py.process.

Definition get_json (req : request) : M json :=
  match req with
  | Undecodable why => raise (BadRequest why)
  | Body data => ret data
  end.

(** [jsonify(v)] answers 200 unless a status is returned with it. *)
Definition jsonify (v : json) : response := mkResponse 200 v.
Definition jsonify_with (v : json) (code : Z) : response := mkResponse code v.

Definition health_check : M response :=
  ret (jsonify (JObj [ ("status", JStr "healthy");
                       ("service", JStr "WipeSure AI Residue Analyzer");
                       ("version", JStr "1.0.0") ])).

(** The [try] block of [analyze_residue]. *)
Definition analyze_residue_try (req : request) : M response :=
  data <- get_json req ;;
  job_id <- lift (Py.get data "job_id" JNull) ;;
  device_id <- lift (Py.get data "device_id" JNull) ;;
  if negb (Py.truthy job_id) || negb (Py.truthy device_id) then
    ret (jsonify_with
           (JObj [ ("error",
                    JStr "Missing required parameters: job_id and device_id") ])
           400)
  else
    result <- ResidueAnalyzer.analyze_device proc job_id device_id ;;
    ret (jsonify result).

(** The [except] clause of [analyze_residue]. *)
Definition analyze_residue_except (e : exn) : M response :=
  ret (jsonify_with
         (JObj [ ("error", JStr ("Analysis failed: " ++ str_exn e));
                 ("entropy_score", JFloat 0.0);
                 ("recoverable_files", JInt 999);
                 ("residue_status", JStr "ERROR") ])
         500).

Definition analyze_residue (req : request) : M response :=
  try_except (analyze_residue_try req) analyze_residue_except.

(** The [try] block of [quick_scan]. *)
Definition quick_scan_try (req : request) : M response :=
  data <- get_json req ;;
  device_id <- lift (Py.get data "device_id" (JStr "unknown")) ;;
  entropy <- ResidueAnalyzer.calculate_entropy proc device_id ;;
  recoverable <- ResidueAnalyzer.detect_recoverable_files entropy ;;
  let status :=
    ResidueAnalyzer.determine_residue_status entropy recoverable in
  ret (jsonify (JObj [ ("entropy_score", JFloat entropy);
                       ("recoverable_files", JInt recoverable);
                       ("residue_status", JStr (status_label status));
                       ("scan_progress", JInt 100);
                       ("estimated_time", JInt 0) ])).

(** The [except] clause of [quick_scan]. *)
Definition quick_scan_except (e : exn) : M response :=
  ret (jsonify_with
         (JObj [ ("error", JStr ("Quick scan failed: " ++ str_exn e)) ])
         500).

Definition quick_scan (req : request) : M response :=
  try_except (quick_scan_try req) quick_scan_except.

End Handlers.

Definition pattern_types : list string :=
  [ "deleted_file"; "metadata"; "free_space"; "encrypted" ].

(** One turn of the loop of [get_data_patterns]. *)
Definition pattern_step (i : Z) (patterns : list json) : M (list json) :=
  let angle := i in
  distance <- Random.uniform 0.1 1.0 ;;
  intensity <- Random.uniform 0 100 ;;
  pattern_type <- Random.choice pattern_types ;;
  ret (patterns ++ [ JObj [ ("angle", JInt angle);
                            ("distance", JFloat distance);
                            ("intensity", JFloat intensity);
                            ("pattern_type", JStr pattern_type) ] ])%list.

Definition get_data_patterns : M response :=
  patterns <- for_each (range 360) pattern_step [] ;;
  ret (jsonify (JObj [ ("patterns", JList patterns);
                       ("scan_radius", JFloat 1.0);
                       ("total_points",
                        JInt (Z.of_nat (length patterns))) ])).

End Service.

(** ** Vocabulary of the properties *)

(** The value a JSON object holds under a key. *)
Definition field (v : json) (key : string) : option json :=
  match v with
  | JObj fields => Py.assoc key fields
  | _ => None
  end.

(** The value [data.get(key)] finds in a request object. *)
Definition requested (fields : list (string * json)) (key : string) : json :=
  match Py.assoc key fields with
  | Some v => v
  | None => JNull
  end.

(** A request field is lacking when the key is absent or its value is
    one Python counts as false (the empty string among them). *)
Definition lacking (fields : list (string * json)) (key : string) : Prop :=
  match Py.assoc key fields with
  | None => True
  | Some v => Py.truthy v = false
  end.

(** [mentions msg name]: [name] occurs in [msg]. *)
Definition mentions (msg name : string) : bool :=
  match String.index 0 name msg with
  | Some _ => true
  | None => false
  end.

(** The three score fields of a response body agree with each other. *)
Definition consistent (body : json) : Prop :=
  exists e r,
    field body "entropy_score" = Some (JFloat e) /\
    field body "recoverable_files" = Some (JInt r) /\
    field body "residue_status"
      = Some (JStr (status_label
                      (ResidueAnalyzer.determine_residue_status e r))).

(** The scoring steps shared by [analyze_device] and [quick_scan]:
    from world [w], entropy [e] then count [r] are produced, ending in
    world [w2]. *)
Definition scores (proc : Py.process) (device_id : json)
    (w : world) (e : Q) (r : Z) (w2 : world) : Prop :=
  exists w1,
    ResidueAnalyzer.calculate_entropy proc device_id w = (Ok e, w1) /\
    ResidueAnalyzer.detect_recoverable_files e w1 = (Ok r, w2).

(** A response body whose score fields are the entropy [e] and the count
    [r] of one run of the scoring steps, with the status derived from
    them. *)
Definition scored_body (proc : Py.process) (body : json) (e : Q) (r : Z)
    : Prop :=
  (exists device_id wa wb, scores proc device_id wa e r wb) /\
  field body "entropy_score" = Some (JFloat e) /\
  field body "recoverable_files" = Some (JInt r) /\
  field body "residue_status"
    = Some (JStr (status_label
                    (ResidueAnalyzer.determine_residue_status e r))).

(** A well-formed pattern entry for the angle [i]. *)
Definition pattern_point (i : Z) (p : json) : Prop :=
  exists distance intensity pattern_type,
    p = JObj [ ("angle", JInt i);
               ("distance", JFloat distance);
               ("intensity", JFloat intensity);
               ("pattern_type", JStr pattern_type) ] /\
    0.1 <= distance /\ distance <= 1.0 /\
    0 <= intensity /\ intensity < 100 /\
    In pattern_type Service.pattern_types.

(** [detect_recoverable_files] with its last branch cut off. *)
Definition detect_without_last_branch (entropy_score : Q) : M Z :=
  if Qle_bool 99.8 entropy_score then ret 0%Z
  else if Qle_bool 99.0 entropy_score then Random.randint 0 2
  else Random.randint 2 10.

(** The random fraction the next call of [random.random()] yields. *)
Definition unit_draw (w : world) : Q :=
  inject_Z (tape w (cursor w) mod 2 ^ 53) / inject_Z (2 ^ 53).

(** Sample inputs: a generator that always yields the smallest word,
    one that always yields the largest 53-bit word, and a process whose
    string hash is the length of the string. *)
Definition zero_tape_world : world := mkWorld (fun _ => 0%Z) 0 0 [].
Definition high_tape_world : world :=
  mkWorld (fun _ => (2 ^ 53 - 1)%Z) 0 0 [].
Definition sample_process : Py.process :=
  Py.mkProcess (fun s => Z.of_nat (String.length s)) (fun _ => 0%Z) 0%Z.

(** ** Vocabulary of the further properties *)

(** How clean a status is, from 0 (HIGH_RESIDUE) to 3 (CLEAN). *)
Definition rank (s : residue_status) : Z :=
  match s with
  | CLEAN => 3
  | MOSTLY_CLEAN => 2
  | SOME_RESIDUE => 1
  | HIGH_RESIDUE => 0
  end%Z.

(** The status read off the entropy alone. *)
Definition status_of_entropy (e : Q) : residue_status :=
  if Qle_bool 99.8 e then CLEAN
  else if Qle_bool 99.0 e then MOSTLY_CLEAN
  else if Qle_bool 95.0 e then SOME_RESIDUE
  else HIGH_RESIDUE.

(** The record [analysis_details] with its counters in range. *)
Definition analysis_details_ok (v : json) : Prop :=
  exists sectors found enc traces remnants,
    v = JObj [ ("sectors_analyzed", JInt sectors);
               ("data_patterns_found", JInt found);
               ("encryption_residue", JBool enc);
               ("metadata_traces", JInt traces);
               ("file_signature_remnants", JInt remnants) ] /\
    (1000000 <= sectors <= 5000000)%Z /\
    (0 <= found <= 100)%Z /\
    (0 <= traces <= 50)%Z /\
    (0 <= remnants <= 20)%Z.

(** A full analysis result for the given identifiers, stamped no earlier
    than [earliest]. *)
Definition analysis_result (job_id device_id : json) (earliest : Q)
    (res : json) : Prop :=
  exists e r details t conf,
    res = JObj [ ("job_id", job_id);
                 ("device_id", device_id);
                 ("entropy_score", JFloat e);
                 ("recoverable_files", JInt r);
                 ("residue_status",
                  JStr (status_label
                          (ResidueAnalyzer.determine_residue_status e r)));
                 ("analysis_details", details);
                 ("timestamp", JFloat t);
                 ("confidence_level", JFloat conf) ] /\
    95.0 <= e /\ e <= 100.0 /\ (0 <= r <= 10)%Z /\
    analysis_details_ok details /\
    earliest <= t /\
    95.0 <= conf /\ conf <= 99.9.

(** A quick-scan body with its scores in range. *)
Definition quick_scan_result (body : json) : Prop :=
  exists e r k,
    body = JObj [ ("entropy_score", JFloat e);
                  ("recoverable_files", JInt r);
                  ("residue_status",
                   JStr (status_label
                           (ResidueAnalyzer.determine_residue_status e r)));
                  ("scan_progress", JInt 100);
                  ("estimated_time", JInt 0) ] /\
    e == inject_Z k * (1 # 100) /\ (9500 <= k <= 10000)%Z /\
    (0 <= r <= 10)%Z.

(** The device identifier [quick_scan] scores. *)
Definition scanned_device (fields : list (string * json)) : json :=
  match Py.assoc "device_id" fields with
  | Some v => v
  | None => JStr "unknown"
  end.

(** The JSON values Python counts as false. *)
Definition falsy_value (v : json) : Prop :=
  v = JNull \/ v = JBool false \/ v = JInt 0 \/
  (exists x, v = JFloat x /\ x == 0) \/
  v = JStr "" \/ v = JList [] \/ v = JObj [].

(** Both required fields of /analyze are present and count as true. *)
Definition both_given (fields : list (string * json)) : bool :=
  Py.truthy (requested fields "job_id")
  && Py.truthy (requested fields "device_id").

(** * Properties *)

(** ** Running computations *)

Lemma bind_ok {A B} (c : M A) (k : A -> M B) w a w' :
  c w = (Ok a, w') -> bind c k w = k a w'.
Proof. intros H. unfold bind. rewrite H. reflexivity. Qed.

Lemma bind_raise {A B} (c : M A) (k : A -> M B) w e w' :
  c w = (Raise e, w') -> bind c k w = (Raise e, w').
Proof. intros H. unfold bind. rewrite H. reflexivity. Qed.

Lemma bind_ret {A B} (a : A) (k : A -> M B) w : bind (ret a) k w = k a w.
Proof. reflexivity. Qed.

Lemma bind_lift_ok {A B} (a : A) (k : A -> M B) w :
  bind (lift (Ok a)) k w = k a w.
Proof. reflexivity. Qed.

Lemma bind_inv_ok {A B} (c : M A) (k : A -> M B) w b w2 :
  bind c k w = (Ok b, w2) ->
  exists a w1, c w = (Ok a, w1) /\ k a w1 = (Ok b, w2).
Proof.
  unfold bind. destruct (c w) as [[a | e] w1]; intros H.
  - exists a, w1. split; [reflexivity | exact H].
  - discriminate H.
Qed.

Lemma try_except_ok {A} (c : M A) h w a w' :
  c w = (Ok a, w') -> try_except c h w = (Ok a, w').
Proof. intros H. unfold try_except. rewrite H. reflexivity. Qed.

Lemma try_except_raise {A} (c : M A) h w e w' :
  c w = (Raise e, w') -> try_except c h w = h e w'.
Proof. intros H. unfold try_except. rewrite H. reflexivity. Qed.

(** ** The random generator *)

Lemma unit_draw_range w : 0 <= unit_draw w /\ unit_draw w < 1.
Proof.
  unfold unit_draw.
  pose proof (Z.mod_pos_bound (tape w (cursor w)) (2 ^ 53) eq_refl) as [Hlo Hhi].
  set (k := (tape w (cursor w) mod 2 ^ 53)%Z) in *.
  split.
  - apply Qle_shift_div_l; [reflexivity |].
    rewrite Qmult_0_l. change 0 with (inject_Z 0). rewrite <- Zle_Qle. exact Hlo.
  - apply Qlt_shift_div_r; [reflexivity |].
    rewrite Qmult_1_l. rewrite <- Zlt_Qlt. exact Hhi.
Qed.

Lemma random_run w : Random.random w = (Ok (unit_draw w), Random.advance w).
Proof. reflexivity. Qed.

Lemma uniform_run a b w :
  Random.uniform a b w = (Ok (a + (b - a) * unit_draw w), Random.advance w).
Proof. reflexivity. Qed.

Lemma uniform_range a b w :
  a < b ->
  a <= a + (b - a) * unit_draw w /\ a + (b - a) * unit_draw w < b.
Proof.
  intros Hab. destruct (unit_draw_range w) as [Hlo Hhi].
  set (u := unit_draw w) in *. split; nra.
Qed.

Lemma randint_run a b w :
  Random.randint a b w
  = (Ok (a + tape w (cursor w) mod (b - a + 1))%Z, Random.advance w).
Proof. reflexivity. Qed.

Lemma randint_range a b w :
  (a <= b)%Z ->
  (a <= a + tape w (cursor w) mod (b - a + 1) <= b)%Z.
Proof.
  intros Hab.
  pose proof (Z.mod_pos_bound (tape w (cursor w)) (b - a + 1)). lia.
Qed.

Lemma randint_inv a b w r w2 :
  (a <= b)%Z ->
  Random.randint a b w = (Ok r, w2) ->
  (a <= r <= b)%Z /\ w2 = Random.advance w.
Proof.
  intros Hab H. rewrite randint_run in H.
  pose proof (randint_range a b w Hab) as Hr.
  injection H as <- <-. split; [exact Hr | reflexivity].
Qed.

Lemma choice_run {A} (x : A) (rest : list A) w :
  exists y,
    Random.choice (x :: rest) w = (Ok y, Random.advance w) /\
    In y (x :: rest).
Proof.
  exists (nth (Z.to_nat (tape w (cursor w) mod Z.of_nat (length (x :: rest))))
              (x :: rest) x).
  split; [reflexivity |].
  apply nth_In.
  pose proof (Z.mod_pos_bound (tape w (cursor w))
                (Z.of_nat (length (x :: rest)))) as Hb.
  cbn [length] in *. lia.
Qed.

(** ** Rounding *)

Lemma round_half_even_near x :
  (Qfloor x <= Py.round_half_even x <= Qfloor x + 1)%Z.
Proof.
  unfold Py.round_half_even.
  destruct (Qcompare (x - inject_Z (Qfloor x)) (1 # 2));
    [destruct (Z.even (Qfloor x)) | |]; lia.
Qed.

Lemma round_half_even_lower k x :
  inject_Z k <= x -> (k <= Py.round_half_even x)%Z.
Proof.
  intros H. apply Qfloor_resp_le in H. rewrite Qfloor_Z in H.
  pose proof (round_half_even_near x). lia.
Qed.

Lemma round_half_even_upper k x :
  x <= inject_Z k -> (Py.round_half_even x <= k)%Z.
Proof.
  intros H.
  pose proof (Qfloor_resp_le _ _ H) as Hf. rewrite Qfloor_Z in Hf.
  pose proof (round_half_even_near x) as Hn.
  destruct (Z.eq_dec (Qfloor x) k) as [E | NE]; [| lia].
  assert (Hlt : x - inject_Z (Qfloor x) < 1 # 2).
  { rewrite E. lra. }
  unfold Py.round_half_even.
  destruct (Qcompare (x - inject_Z (Qfloor x)) (1 # 2)) eqn:C.
  - apply Qeq_alt in C. lra.
  - lia.
  - apply Qgt_alt in C. lra.
Qed.

(** [round(x, 2)] is a whole number of hundredths. *)
Lemma round_2_hundredths x :
  Py.round x 2 == inject_Z (Py.round_half_even (x * 100)) * (1 # 100).
Proof. reflexivity. Qed.

Lemma round_2_bounds lo hi x :
  inject_Z lo * (1 # 100) <= x -> x <= inject_Z hi * (1 # 100) ->
  inject_Z lo * (1 # 100) <= Py.round x 2 /\
  Py.round x 2 <= inject_Z hi * (1 # 100).
Proof.
  intros Hlo Hhi.
  assert (H1 : (lo <= Py.round_half_even (x * 100))%Z).
  { apply round_half_even_lower. lra. }
  assert (H2 : (Py.round_half_even (x * 100) <= hi)%Z).
  { apply round_half_even_upper. lra. }
  rewrite Zle_Qle in H1, H2.
  rewrite round_2_hundredths. split; lra.
Qed.

Lemma round_half_even_error x :
  x - (1 # 2) <= inject_Z (Py.round_half_even x) /\
  inject_Z (Py.round_half_even x) <= x + (1 # 2).
Proof.
  pose proof (Qfloor_le x) as Hlo. pose proof (Qlt_floor x) as Hhi.
  rewrite inject_Z_plus in Hhi. change (inject_Z 1) with 1 in Hhi.
  unfold Py.round_half_even.
  destruct (Qcompare (x - inject_Z (Qfloor x)) (1 # 2)) eqn:C.
  - apply Qeq_alt in C.
    destruct (Z.even (Qfloor x));
      rewrite ?inject_Z_plus; change (inject_Z 1) with 1; split; lra.
  - apply Qlt_alt in C. split; lra.
  - apply Qgt_alt in C.
    rewrite inject_Z_plus. change (inject_Z 1) with 1. split; lra.
Qed.

Lemma round_2_error x :
  x - (1 # 200) <= Py.round x 2 /\ Py.round x 2 <= x + (1 # 200).
Proof.
  rewrite round_2_hundredths.
  destruct (round_half_even_error (x * 100)) as [Hlo Hhi]. split; lra.
Qed.

(** [Py.min 100.0 x] is the smaller of [x] and 100. *)
Lemma min_100_is_Qmin x : Py.min 100.0 x == Qmin x 100.
Proof.
  unfold Py.min. destruct (Qle_bool 100.0 x) eqn:E.
  - apply Qle_bool_iff in E. rewrite Q.min_r; [reflexivity | lra].
  - assert (~ 100.0 <= x) by (rewrite <- Qle_bool_iff, E; discriminate).
    rewrite Q.min_l; [reflexivity | lra].
Qed.

(** Rounding to hundredths is stable near the range [95, 100]: a value
    within a hundred-millionth of a point of that range still rounds
    into the range, onto the grid, and stays within 0.005 and that
    margin of the point. *)
Lemma round_2_stable c x :
  95 <= c -> c <= 100 ->
  c - (1 # 100000000) <= x -> x <= c + (1 # 100000000) ->
  95 <= Py.round x 2 /\ Py.round x 2 <= 100 /\
  c - ((1 # 200) + (1 # 100000000)) <= Py.round x 2 /\
  Py.round x 2 <= c + ((1 # 200) + (1 # 100000000)).
Proof.
  intros Hc1 Hc2 Hx1 Hx2.
  destruct (round_2_error x) as [E1 E2].
  pose proof (round_2_hundredths x) as Hgrid.
  set (k := Py.round_half_even (x * 100)) in *.
  assert (Hk : (9500 <= k <= 10000)%Z).
  { assert (H1 : inject_Z 9499 < inject_Z k).
    { change (inject_Z 9499) with 9499. lra. }
    assert (H2 : inject_Z k < inject_Z 10001).
    { change (inject_Z 10001) with 10001. lra. }
    rewrite <- Zlt_Qlt in H1, H2. lia. }
  destruct Hk as [Hk1 Hk2]. rewrite Zle_Qle in Hk1, Hk2.
  change (inject_Z 9500) with 9500 in Hk1.
  change (inject_Z 10000) with 10000 in Hk2.
  repeat split; lra.
Qed.

Lemma min_bounds a b lo :
  lo <= a -> lo <= b -> lo <= Py.min a b /\ Py.min a b <= a.
Proof.
  intros Ha Hb. unfold Py.min.
  destruct (Qle_bool a b) eqn:E.
  - split; lra.
  - assert (~ a <= b) by (rewrite <- Qle_bool_iff, E; discriminate).
    split; lra.
Qed.

(** ** calculate_entropy *)

Lemma device_factor_range h :
  0 <= ResidueAnalyzer.device_factor h /\ ResidueAnalyzer.device_factor h < 1.
Proof.
  unfold ResidueAnalyzer.device_factor, Qdiv.
  change (/ 100.0) with (10 # 1000).
  pose proof (Z.mod_pos_bound h 100 eq_refl) as [Hlo Hhi].
  rewrite Zle_Qle in Hlo. rewrite Zlt_Qlt in Hhi.
  set (m := inject_Z (h mod 100)) in *.
  change (inject_Z 0) with 0 in Hlo. change (inject_Z 100) with 100 in Hhi.
  split; lra.
Qed.

(** The entropy obtained in world [w] from a device whose hash is [h]. *)
Lemma calculate_entropy_run proc device_id h w :
  Py.hash proc device_id = Ok h ->
  ResidueAnalyzer.calculate_entropy proc device_id w
  = (Ok (Py.round
           (Py.min 100.0 (95.0 + (100.0 - 95.0) * unit_draw w
                          + ResidueAnalyzer.device_factor h)) 2),
     Random.advance w).
Proof.
  intros Hh. unfold ResidueAnalyzer.calculate_entropy.
  rewrite (bind_ok _ _ _ _ _ (uniform_run 95.0 100.0 w)).
  unfold lift, bind, ret. rewrite Hh. reflexivity.
Qed.

Lemma calculate_entropy_raise proc device_id ex w :
  Py.hash proc device_id = Raise ex ->
  ResidueAnalyzer.calculate_entropy proc device_id w
  = (Raise ex, Random.advance w).
Proof.
  intros Hh. unfold ResidueAnalyzer.calculate_entropy.
  rewrite (bind_ok _ _ _ _ _ (uniform_run 95.0 100.0 w)).
  unfold lift, bind, ret. rewrite Hh. reflexivity.
Qed.

Lemma clamped_sum_range base off :
  95.0 <= base -> 0 <= off ->
  95.0 <= Py.round (Py.min 100.0 (base + off)) 2 /\
  Py.round (Py.min 100.0 (base + off)) 2 <= 100.0.
Proof.
  intros Hb Ho.
  destruct (min_bounds 100.0 (base + off) 95.0) as [Hlo Hhi]; [lra | lra |].
  destruct (round_2_bounds 9500 10000 (Py.min 100.0 (base + off)))
    as [H1 H2].
  - change (inject_Z 9500) with 9500. lra.
  - change (inject_Z 10000) with 10000. lra.
  - change (inject_Z 9500) with 9500 in H1.
    change (inject_Z 10000) with 10000 in H2. split; lra.
Qed.

Lemma calculate_entropy_range proc device_id w e w' :
  ResidueAnalyzer.calculate_entropy proc device_id w = (Ok e, w') ->
  95.0 <= e /\ e <= 100.0.
Proof.
  intros H. destruct (Py.hash proc device_id) as [h | ex] eqn:Hh.
  - rewrite (calculate_entropy_run _ _ _ _ Hh) in H.
    injection H as <- _.
    destruct (uniform_range 95.0 100.0 w) as [Hlo _]; [lra |].
    destruct (device_factor_range h) as [Hd _].
    apply clamped_sum_range; assumption.
  - rewrite (calculate_entropy_raise _ _ _ _ Hh) in H. discriminate H.
Qed.

(** ** The threshold tests *)

Lemma Qle_bool_spec a b : reflect (a <= b) (Qle_bool a b).
Proof. apply iff_reflect. symmetry. apply Qle_bool_iff. Qed.

Ltac threshold_cases :=
  repeat match goal with
         | |- context [Qle_bool ?a ?b] => destruct (Qle_bool_spec a b)
         | |- context [(?a =? ?b)%Z] => destruct (Z.eqb_spec a b)
         | |- context [(?a <=? ?b)%Z] => destruct (Z.leb_spec a b)
         end;
  cbn [andb].

Ltac settle_cases :=
  intros;
  repeat match goal with
         | H : _ /\ _ |- _ => destruct H
         | |- ~ _ => intros [? ?]
         end;
  first [ assumption | discriminate | reflexivity
        | exfalso; lra | exfalso; lia | tauto | lra | lia ].

(** C1. [determine_residue_status] tries its four branches in order and
    the first whose test holds decides: CLEAN exactly when the entropy is
    at least 99.8 and nothing is recoverable; failing that, MOSTLY_CLEAN
    exactly when the entropy is at least 99.0 with at most 2 recoverable
    files; failing that, SOME_RESIDUE exactly when the entropy is at
    least 95.0; HIGH_RESIDUE in every remaining case.  So an entropy of
    at least 99.0 with more than 2 recoverable files is SOME_RESIDUE
    (99.5 with 5), while 99.5 with 1 is MOSTLY_CLEAN. *)
Theorem determine_residue_status_first_match (e : Q) (r : Z) :
  (ResidueAnalyzer.determine_residue_status e r = CLEAN
     <-> 99.8 <= e /\ r = 0%Z) /\
  (ResidueAnalyzer.determine_residue_status e r = MOSTLY_CLEAN
     <-> ~ (99.8 <= e /\ r = 0%Z) /\ 99.0 <= e /\ (r <= 2)%Z) /\
  (ResidueAnalyzer.determine_residue_status e r = SOME_RESIDUE
     <-> ~ (99.8 <= e /\ r = 0%Z) /\ ~ (99.0 <= e /\ (r <= 2)%Z) /\
         95.0 <= e) /\
  (ResidueAnalyzer.determine_residue_status e r = HIGH_RESIDUE
     <-> ~ (99.8 <= e /\ r = 0%Z) /\ ~ (99.0 <= e /\ (r <= 2)%Z) /\
         ~ 95.0 <= e) /\
  (99.0 <= e -> (2 < r)%Z ->
     ResidueAnalyzer.determine_residue_status e r = SOME_RESIDUE) /\
  ResidueAnalyzer.determine_residue_status 99.5 5 = SOME_RESIDUE /\
  ResidueAnalyzer.determine_residue_status 99.5 1 = MOSTLY_CLEAN.
Proof.
  unfold ResidueAnalyzer.determine_residue_status at 1 2 3 4 5.
  threshold_cases; repeat split; settle_cases.
Qed.

(** C2. [detect_recoverable_files] is piecewise in the entropy: exactly 0
    (and no random draw) from 99.8 up; an integer in [0, 2] on
    [99.0, 99.8); an integer in [2, 10] on [95.0, 99.0); an integer in
    [10, 50] below 95.0.  In each random case one word of the generator
    is consumed. *)
Theorem detect_recoverable_files_piecewise (e : Q) (w : world) :
  (99.8 <= e ->
     ResidueAnalyzer.detect_recoverable_files e w = (Ok 0%Z, w)) /\
  (99.0 <= e /\ e < 99.8 ->
     exists k, ResidueAnalyzer.detect_recoverable_files e w
               = (Ok k, Random.advance w) /\ (0 <= k <= 2)%Z) /\
  (95.0 <= e /\ e < 99.0 ->
     exists k, ResidueAnalyzer.detect_recoverable_files e w
               = (Ok k, Random.advance w) /\ (2 <= k <= 10)%Z) /\
  (e < 95.0 ->
     exists k, ResidueAnalyzer.detect_recoverable_files e w
               = (Ok k, Random.advance w) /\ (10 <= k <= 50)%Z).
Proof.
  unfold ResidueAnalyzer.detect_recoverable_files.
  repeat split; intros H; threshold_cases; try (exfalso; lra);
    try reflexivity; rewrite randint_run;
    eexists; (split; [reflexivity | apply randint_range; lia]).
Qed.

(** C3. For a string [device_id], [calculate_entropy] returns a value in
    [95.0, 100.0].  Its offset is [hash(device_id) % 100 / 100.0]: it is
    fixed by the process and the device identifier alone, whatever the
    state of the random generator, and lies in [0, 1).  In every world
    the function returns; the base it draws lies in [95.0, 100.0]; and
    the result is the sum of base and offset clamped to at most 100.0 and
    rounded to two decimals, that is a whole number of hundredths no
    farther from the clamped sum than half a hundredth, up to a
    hundred-millionth allowed for the error of binary64 arithmetic. *)
Theorem calculate_entropy_in_range (proc : Py.process) (device_id : string) :
  let offset := inject_Z (Py.str_hash proc device_id mod 100) / 100.0 in
  Py.hash proc (JStr device_id) = Ok (Py.str_hash proc device_id) /\
  0 <= offset /\ offset < 1 /\
  forall w, exists base e k,
    Random.uniform 95.0 100.0 w = (Ok base, Random.advance w) /\
    95.0 <= base /\ base <= 100.0 /\
    ResidueAnalyzer.calculate_entropy proc (JStr device_id) w
      = (Ok e, Random.advance w) /\
    Qmin (base + offset) 100 <= 100.0 /\
    e == inject_Z k * (1 # 100) /\
    Qmin (base + offset) 100 - ((1 # 200) + (1 # 100000000)) <= e /\
    e <= Qmin (base + offset) 100 + ((1 # 200) + (1 # 100000000)) /\
    95.0 <= e /\ e <= 100.0.
Proof.
  cbv zeta.
  change (inject_Z (Py.str_hash proc device_id mod 100) / 100.0)
    with (ResidueAnalyzer.device_factor (Py.str_hash proc device_id)).
  set (f := ResidueAnalyzer.device_factor (Py.str_hash proc device_id)).
  destruct (device_factor_range (Py.str_hash proc device_id)) as [Hlo Hhi].
  fold f in Hlo, Hhi.
  split; [reflexivity |]. split; [exact Hlo |]. split; [exact Hhi |].
  intros w.
  destruct (uniform_range 95.0 100.0 w) as [Hb1 Hb2]; [lra |].
  set (base := 95.0 + (100.0 - 95.0) * unit_draw w) in *.
  pose proof (calculate_entropy_run proc (JStr device_id) _ w eq_refl) as Hrun.
  fold f base in Hrun.
  destruct (round_2_error (Py.min 100.0 (base + f))) as [E1 E2].
  destruct (clamped_sum_range base f Hb1 Hlo) as [R1 R2].
  pose proof (min_100_is_Qmin (base + f)) as Hmin.
  pose proof (Q.le_min_r (base + f) 100) as Hclamp.
  exists base, (Py.round (Py.min 100.0 (base + f)) 2),
    (Py.round_half_even (Py.min 100.0 (base + f) * 100)).
  split; [apply uniform_run |].
  split; [exact Hb1 |]. split; [lra |].
  split; [exact Hrun |].
  split; [lra |].
  split; [apply round_2_hundredths |].
  repeat split; lra.
Qed.

(** ** The scoring steps *)

Lemma detect_recoverable_files_total e w :
  exists r w2,
    ResidueAnalyzer.detect_recoverable_files e w = (Ok r, w2) /\
    slept w2 = slept w /\ clock w2 = clock w /\ (cursor w <= cursor w2)%nat.
Proof.
  unfold ResidueAnalyzer.detect_recoverable_files.
  threshold_cases; try rewrite randint_run; do 2 eexists;
    (split; [reflexivity |]); cbn; auto.
Qed.

Lemma detect_on_scored_entropy e w :
  95.0 <= e ->
  ResidueAnalyzer.detect_recoverable_files e w
  = detect_without_last_branch e w.
Proof.
  intros He.
  unfold ResidueAnalyzer.detect_recoverable_files, detect_without_last_branch.
  threshold_cases; try reflexivity. exfalso; lra.
Qed.

Lemma detect_without_last_branch_range e w r w2 :
  detect_without_last_branch e w = (Ok r, w2) ->
  (0 <= r <= 10)%Z /\ (99.8 <= e -> r = 0%Z).
Proof.
  unfold detect_without_last_branch.
  threshold_cases; intros H.
  - injection H as <- _. split; [lia | reflexivity].
  - apply randint_inv in H; [| lia].
    split; [lia | intros; exfalso; lra].
  - apply randint_inv in H; [| lia].
    split; [lia | intros; exfalso; lra].
Qed.

(** What holds of every entropy and count the scoring steps produce. *)
Lemma scores_facts proc device_id w e r w2 :
  scores proc device_id w e r w2 ->
  95.0 <= e /\ e <= 100.0 /\ (0 <= r <= 10)%Z /\
  (ResidueAnalyzer.determine_residue_status e r = CLEAN <-> 99.8 <= e) /\
  ResidueAnalyzer.determine_residue_status e r <> HIGH_RESIDUE.
Proof.
  intros (w1 & He & Hr).
  destruct (calculate_entropy_range _ _ _ _ _ He) as [Hlo Hhi].
  rewrite (detect_on_scored_entropy e w1 Hlo) in Hr.
  destruct (detect_without_last_branch_range _ _ _ _ Hr) as [Hr1 Hr2].
  split; [exact Hlo |]. split; [exact Hhi |]. split; [exact Hr1 |].
  unfold ResidueAnalyzer.determine_residue_status.
  threshold_cases; repeat split; settle_cases.
Qed.

(** ** analyze_device *)

Ltac split_bind H x w Hx :=
  apply bind_inv_ok in H; destruct H as (x & w & Hx & H).

Lemma ret_inv {A} (a b : A) (w w' : world) :
  ret a w = (Ok b, w') -> b = a /\ w' = w.
Proof. unfold ret. intros H. injection H as <- <-. auto. Qed.

(** A result of [analyze_device] carries the scores of one run of the
    scoring steps, and echoes the identifiers. *)
Lemma analyze_device_inv proc job_id device_id w res w' :
  ResidueAnalyzer.analyze_device proc job_id device_id w = (Ok res, w') ->
  exists e r wa wb,
    scores proc device_id wa e r wb /\
    field res "job_id" = Some job_id /\
    field res "device_id" = Some device_id /\
    field res "entropy_score" = Some (JFloat e) /\
    field res "recoverable_files" = Some (JInt r) /\
    field res "residue_status"
      = Some (JStr (status_label
                      (ResidueAnalyzer.determine_residue_status e r))).
Proof.
  unfold ResidueAnalyzer.analyze_device. intros H.
  split_bind H d w1 Hd. split_bind H u w2 Hs.
  split_bind H e w3 He. split_bind H r w4 Hr.
  split_bind H sectors w5 H5. split_bind H found w6 H6.
  split_bind H enc w7 H7. split_bind H meta w8 H8.
  split_bind H remnants w9 H9. split_bind H t w10 H10.
  split_bind H conf w11 H11.
  apply ret_inv in H. destruct H as [-> _].
  exists e, r, w2, w4. split.
  - exists w3. split; assumption.
  - repeat split; reflexivity.
Qed.

Lemma sleep_run d w : Time.sleep d w = (Ok tt, Time.after_sleep d w).
Proof. reflexivity. Qed.

(** The sleep comes first, whatever happens next. *)
Lemma analyze_device_sleeps proc job_id device_id w :
  exists d,
    slept (snd (ResidueAnalyzer.analyze_device proc job_id device_id w))
    = d :: slept w /\ 2 <= d /\ d < 5.
Proof.
  exists (2 + (5 - 2) * unit_draw w).
  split; [| apply uniform_range; lra].
  unfold ResidueAnalyzer.analyze_device.
  rewrite (bind_ok _ _ _ _ _ (uniform_run 2 5 w)).
  rewrite (bind_ok _ _ _ _ _ (sleep_run _ _)).
  set (ws := Time.after_sleep _ _).
  destruct (Py.hash proc device_id) as [h | ex] eqn:Hh.
  - rewrite (bind_ok _ _ _ _ _ (calculate_entropy_run _ _ _ ws Hh)).
    destruct (detect_recoverable_files_total
                (Py.round (Py.min 100.0 (95.0 + (100.0 - 95.0) * unit_draw ws
                           + ResidueAnalyzer.device_factor h)) 2)
                (Random.advance ws)) as (r & w2 & Hr & Hs & _).
    rewrite (bind_ok _ _ _ _ _ Hr).
    cbn [bind Random.randint Random.randbelow Random.next Random.choice
         Random.uniform Random.random Time.time ret snd slept Random.advance
         length].
    rewrite Hs. reflexivity.
  - rewrite (bind_raise _ _ _ _ _ (calculate_entropy_raise _ _ _ ws Hh)).
    reflexivity.
Qed.

Lemma analyze_device_total proc job_id device_id h w :
  Py.hash proc device_id = Ok h ->
  exists res w', ResidueAnalyzer.analyze_device proc job_id device_id w
                 = (Ok res, w').
Proof.
  intros Hh. unfold ResidueAnalyzer.analyze_device.
  rewrite (bind_ok _ _ _ _ _ (uniform_run 2 5 w)).
  rewrite (bind_ok _ _ _ _ _ (sleep_run _ _)).
  rewrite (bind_ok _ _ _ _ _ (calculate_entropy_run _ _ _ _ Hh)).
  match goal with
  | |- context [bind (ResidueAnalyzer.detect_recoverable_files ?e) _ ?w1] =>
      destruct (detect_recoverable_files_total e w1) as (r & w2 & Hr & _)
  end.
  rewrite (bind_ok _ _ _ _ _ Hr).
  do 2 eexists. reflexivity.
Qed.

Lemma analyze_device_raise proc job_id device_id ex w :
  Py.hash proc device_id = Raise ex ->
  exists w', ResidueAnalyzer.analyze_device proc job_id device_id w
             = (Raise ex, w').
Proof.
  intros Hh. unfold ResidueAnalyzer.analyze_device.
  rewrite (bind_ok _ _ _ _ _ (uniform_run 2 5 w)).
  rewrite (bind_ok _ _ _ _ _ (sleep_run _ _)).
  rewrite (bind_raise _ _ _ _ _ (calculate_entropy_raise _ _ _ _ Hh)).
  eexists. reflexivity.
Qed.

(** ** The handlers *)

Lemma lacking_falsy fields key :
  lacking fields key <-> Py.truthy (requested fields key) = false.
Proof.
  unfold lacking, requested.
  destruct (Py.assoc key fields); [tauto | cbn; tauto].
Qed.

Lemma lacking_cases fields key :
  Py.assoc key fields = None \/
  Py.assoc key fields = Some JNull \/
  Py.assoc key fields = Some (JStr "") ->
  lacking fields key.
Proof.
  unfold lacking. intros [-> | [-> | ->]]; [exact I | reflexivity ..].
Qed.

Lemma analyze_residue_try_object proc fields w :
  Service.analyze_residue_try proc (Body (JObj fields)) w
  = if negb (Py.truthy (requested fields "job_id"))
       || negb (Py.truthy (requested fields "device_id"))
    then (Ok (mkResponse 400
                (JObj [ ("error",
                         JStr "Missing required parameters: job_id and device_id") ])),
          w)
    else bind (ResidueAnalyzer.analyze_device proc
                 (requested fields "job_id") (requested fields "device_id"))
              (fun result => ret (Service.jsonify result)) w.
Proof.
  unfold Service.analyze_residue_try, requested.
  cbn [Service.get_json Py.get bind ret lift].
  destruct (negb _ || negb _); reflexivity.
Qed.

(** What the [try] block of [analyze_residue] can return. *)
Lemma analyze_residue_try_inv proc req w resp w' :
  Service.analyze_residue_try proc req w = (Ok resp, w') ->
  (status_code resp = 400%Z /\ w' = w) \/
  (status_code resp = 200%Z /\
   exists job_id device_id,
     ResidueAnalyzer.analyze_device proc job_id device_id w
     = (Ok (payload resp), w')).
Proof.
  destruct req as [why | data].
  { intros H. discriminate H. }
  destruct data; try (intros H; discriminate H).
  rewrite analyze_residue_try_object.
  destruct (negb _ || negb _).
  - intros H. injection H as <- <-. left. split; reflexivity.
  - intros H. split_bind H res w1 Hres. apply ret_inv in H.
    destruct H as [-> ->]. right. split; [reflexivity |].
    do 2 eexists. exact Hres.
Qed.

Lemma analyze_residue_ok_inv proc req w resp w' :
  Service.analyze_residue proc req w = (Ok resp, w') ->
  Service.analyze_residue_try proc req w = (Ok resp, w') \/
  (status_code resp = 500%Z /\
   exists e, Service.analyze_residue_try proc req w = (Raise e, w')).
Proof.
  unfold Service.analyze_residue, try_except.
  destruct (Service.analyze_residue_try proc req w) as [[r | e] w1]; intros H.
  - left. exact H.
  - right. apply ret_inv in H. destruct H as [-> ->].
    split; [reflexivity | exists e; reflexivity].
Qed.

(** What the [try] block of [quick_scan] returns when it returns. *)
Lemma quick_scan_try_inv proc req w resp w' :
  Service.quick_scan_try proc req w = (Ok resp, w') ->
  exists device_id e r,
    scores proc device_id w e r w' /\
    resp = mkResponse 200
             (JObj [ ("entropy_score", JFloat e);
                     ("recoverable_files", JInt r);
                     ("residue_status",
                      JStr (status_label
                              (ResidueAnalyzer.determine_residue_status e r)));
                     ("scan_progress", JInt 100);
                     ("estimated_time", JInt 0) ]).
Proof.
  unfold Service.quick_scan_try. intros H.
  split_bind H data w1 Hdata. split_bind H device_id w2 Hdev.
  split_bind H e w3 He. split_bind H r w4 Hr.
  apply ret_inv in H. destruct H as [-> ->].
  assert (w2 = w) as ->.
  { destruct req; [discriminate Hdata |].
    apply ret_inv in Hdata. destruct Hdata as [_ ->].
    unfold lift in Hdev. congruence. }
  exists device_id, e, r. split; [| reflexivity].
  exists w3. split; assumption.
Qed.

Lemma quick_scan_ok_inv proc req w resp w' :
  Service.quick_scan proc req w = (Ok resp, w') ->
  Service.quick_scan_try proc req w = (Ok resp, w') \/
  (status_code resp = 500%Z /\
   exists e, Service.quick_scan_try proc req w = (Raise e, w')).
Proof.
  unfold Service.quick_scan, try_except.
  destruct (Service.quick_scan_try proc req w) as [[r | e] w1]; intros H.
  - left. exact H.
  - right. apply ret_inv in H. destruct H as [-> ->].
    split; [reflexivity | exists e; reflexivity].
Qed.

(** Every 200 answer of the two scoring endpoints carries the scores of
    one run of the scoring steps. *)
Lemma analyze_residue_200 proc req w resp w' :
  Service.analyze_residue proc req w = (Ok resp, w') ->
  status_code resp = 200%Z ->
  exists e r, scored_body proc (payload resp) e r.
Proof.
  intros H H200.
  apply analyze_residue_ok_inv in H. destruct H as [H | [H500 _]].
  2: { rewrite H200 in H500. discriminate H500. }
  apply analyze_residue_try_inv in H.
  destruct H as [[H400 _] | [_ (job_id & device_id & H)]].
  { rewrite H200 in H400. discriminate H400. }
  apply analyze_device_inv in H.
  destruct H as (e & r & wa & wb & Hs & _ & _ & He & Hr & Hst).
  exists e, r. split; [exists device_id, wa, wb; exact Hs | auto].
Qed.

Lemma quick_scan_200 proc req w resp w' :
  Service.quick_scan proc req w = (Ok resp, w') ->
  status_code resp = 200%Z ->
  exists e r, scored_body proc (payload resp) e r.
Proof.
  intros H H200.
  apply quick_scan_ok_inv in H. destruct H as [H | [H500 _]].
  2: { rewrite H200 in H500. discriminate H500. }
  apply quick_scan_try_inv in H.
  destruct H as (device_id & e & r & Hs & ->).
  exists e, r. split; [exists device_id, w, w'; exact Hs |].
  repeat split; reflexivity.
Qed.

(** With a hashable device identifier the quick scan answers 200. *)
Lemma quick_scan_run proc fields h w :
  Py.hash proc (match Py.assoc "device_id" fields with
                | Some v => v
                | None => JStr "unknown"
                end) = Ok h ->
  exists e r w1 w2,
    ResidueAnalyzer.calculate_entropy proc
      (match Py.assoc "device_id" fields with
       | Some v => v
       | None => JStr "unknown"
       end) w = (Ok e, w1) /\
    ResidueAnalyzer.detect_recoverable_files e w1 = (Ok r, w2) /\
    slept w2 = slept w /\ clock w2 = clock w /\
    Service.quick_scan proc (Body (JObj fields)) w
    = (Ok (mkResponse 200
             (JObj [ ("entropy_score", JFloat e);
                     ("recoverable_files", JInt r);
                     ("residue_status",
                      JStr (status_label
                              (ResidueAnalyzer.determine_residue_status e r)));
                     ("scan_progress", JInt 100);
                     ("estimated_time", JInt 0) ])), w2).
Proof.
  intros Hh.
  pose proof (calculate_entropy_run _ _ _ w Hh) as He.
  match type of He with
  | _ = (Ok ?e, ?w1) =>
      destruct (detect_recoverable_files_total e w1)
        as (r & w2 & Hr & Hs & Hc & _);
      exists e, r, w1, w2
  end.
  split; [exact He |]. split; [exact Hr |].
  split; [exact Hs |]. split; [exact Hc |].
  unfold Service.quick_scan. apply try_except_ok.
  unfold Service.quick_scan_try.
  cbn [Service.get_json]. rewrite bind_ret.
  cbn [Py.get]. rewrite bind_lift_ok.
  rewrite (bind_ok _ _ _ _ _ He).
  rewrite (bind_ok _ _ _ _ _ Hr).
  reflexivity.
Qed.

Lemma scored_body_consistent proc body e r :
  scored_body proc body e r -> consistent body.
Proof. intros (_ & He & Hr & Hs). exists e, r. auto. Qed.

(** C4. In every result of [analyze_device], and in every 200 answer of
    /analyze and of /quick-scan, the fields entropy_score,
    recoverable_files and residue_status agree: the status is the one
    [determine_residue_status] gives for the other two.  Such results
    exist for every job and every string device identifier. *)
Theorem scores_mutually_consistent (proc : Py.process) :
  (forall job_id device_id w res w',
      ResidueAnalyzer.analyze_device proc job_id device_id w = (Ok res, w') ->
      consistent res) /\
  (forall job_id (device_id : string) w,
      exists res w',
        ResidueAnalyzer.analyze_device proc job_id (JStr device_id) w
        = (Ok res, w') /\ consistent res) /\
  (forall req w resp w',
      Service.analyze_residue proc req w = (Ok resp, w') ->
      status_code resp = 200%Z -> consistent (payload resp)) /\
  (forall req w resp w',
      Service.quick_scan proc req w = (Ok resp, w') ->
      status_code resp = 200%Z -> consistent (payload resp)) /\
  (forall (device_id : string) w,
      exists resp w',
        Service.quick_scan proc
          (Body (JObj [("device_id", JStr device_id)])) w = (Ok resp, w') /\
        status_code resp = 200%Z /\ consistent (payload resp)).
Proof.
  assert (Hdev : forall job_id device_id w res w',
             ResidueAnalyzer.analyze_device proc job_id device_id w
             = (Ok res, w') -> consistent res).
  { intros job_id device_id w res w' H.
    apply analyze_device_inv in H.
    destruct H as (e & r & _ & _ & _ & _ & _ & He & Hr & Hs).
    exists e, r. auto. }
  split; [exact Hdev |]. split; [| split; [| split]].
  - intros job_id device_id w.
    destruct (analyze_device_total proc job_id (JStr device_id) _ w eq_refl)
      as (res & w' & H).
    exists res, w'. split; [exact H | exact (Hdev _ _ _ _ _ H)].
  - intros req w resp w' H H200.
    destruct (analyze_residue_200 _ _ _ _ _ H H200) as (e & r & Hb).
    exact (scored_body_consistent _ _ _ _ Hb).
  - intros req w resp w' H H200.
    destruct (quick_scan_200 _ _ _ _ _ H H200) as (e & r & Hb).
    exact (scored_body_consistent _ _ _ _ Hb).
  - intros device_id w.
    destruct (quick_scan_run proc [("device_id", JStr device_id)] _ w eq_refl)
      as (e & r & w1 & w2 & _ & _ & _ & _ & H).
    do 2 eexists. split; [exact H |]. split; [reflexivity |].
    exists e, r. repeat split; reflexivity.
Qed.

Lemma cons_neq {A} (x : A) (l : list A) : x :: l <> l.
Proof.
  intros H. apply (f_equal (@length A)) in H. cbn in H. lia.
Qed.

(** C5. POST /analyze with an object body that lacks job_id or
    device_id (the key absent, or its value empty) answers 400 with an
    error message naming both required fields, and leaves the world as
    it was: the analyzer, which always sleeps first, has not run. *)
Theorem analyze_rejects_missing_fields
    (proc : Py.process) (fields : list (string * json)) (w : world) :
  lacking fields "job_id" \/ lacking fields "device_id" ->
  Service.analyze_residue proc (Body (JObj fields)) w
  = (Ok (mkResponse 400
           (JObj [ ("error",
                    JStr "Missing required parameters: job_id and device_id") ])),
     w) /\
  mentions "Missing required parameters: job_id and device_id" "job_id"
  = true /\
  mentions "Missing required parameters: job_id and device_id" "device_id"
  = true /\
  forall job_id device_id,
    snd (ResidueAnalyzer.analyze_device proc job_id device_id w) <> w.
Proof.
  intros Hlack. split; [| split; [reflexivity | split; [reflexivity |]]].
  - unfold Service.analyze_residue. apply try_except_ok.
    rewrite analyze_residue_try_object.
    rewrite !lacking_falsy in Hlack.
    destruct Hlack as [-> | ->]; [reflexivity |].
    rewrite orb_true_r. reflexivity.
  - intros job_id device_id Heq.
    destruct (analyze_device_sleeps proc job_id device_id w) as (d & Hd & _).
    rewrite Heq in Hd. symmetry in Hd. exact (cons_neq _ _ Hd).
Qed.

(** An empty job_id is rejected. *)
Lemma analyze_rejects_missing_fields_witness :
  Service.analyze_residue sample_process
    (Body (JObj [("job_id", JStr ""); ("device_id", JStr "sda")]))
    zero_tape_world
  = (Ok (mkResponse 400
           (JObj [ ("error",
                    JStr "Missing required parameters: job_id and device_id") ])),
     zero_tape_world).
Proof.
  apply (analyze_rejects_missing_fields sample_process
           [("job_id", JStr ""); ("device_id", JStr "sda")] zero_tape_world).
  left. reflexivity.
Defined.

(** C6. An exception raised inside the [try] block of /analyze never
    leaves the handler: the answer is 500 with the fixed body holding an
    error message, entropy_score 0.0, recoverable_files 999 and
    residue_status "ERROR".  On /quick-scan the answer is 500 with a body
    holding the error message only.  Both handlers always answer, and an
    answer of 500 only ever comes from such an exception. *)
Theorem exceptions_become_500 (proc : Py.process) (req : request) (w : world) :
  (forall e w',
      Service.analyze_residue_try proc req w = (Raise e, w') ->
      Service.analyze_residue proc req w
      = (Ok (mkResponse 500
               (JObj [ ("error", JStr ("Analysis failed: " ++ str_exn e));
                       ("entropy_score", JFloat 0.0);
                       ("recoverable_files", JInt 999);
                       ("residue_status", JStr "ERROR") ])), w')) /\
  (forall e w',
      Service.quick_scan_try proc req w = (Raise e, w') ->
      Service.quick_scan proc req w
      = (Ok (mkResponse 500
               (JObj [ ("error", JStr ("Quick scan failed: " ++ str_exn e)) ])),
         w')) /\
  (exists resp w', Service.analyze_residue proc req w = (Ok resp, w')) /\
  (exists resp w', Service.quick_scan proc req w = (Ok resp, w')) /\
  (forall resp w',
      Service.analyze_residue proc req w = (Ok resp, w') ->
      status_code resp = 500%Z ->
      exists e, Service.analyze_residue_try proc req w = (Raise e, w')) /\
  (forall resp w',
      Service.quick_scan proc req w = (Ok resp, w') ->
      status_code resp = 500%Z ->
      exists e, Service.quick_scan_try proc req w = (Raise e, w')).
Proof.
  repeat split.
  - intros e w' H. unfold Service.analyze_residue.
    rewrite (try_except_raise _ _ _ _ _ H). reflexivity.
  - intros e w' H. unfold Service.quick_scan.
    rewrite (try_except_raise _ _ _ _ _ H). reflexivity.
  - unfold Service.analyze_residue, try_except.
    destruct (Service.analyze_residue_try proc req w) as [[r | e] w1];
      do 2 eexists; reflexivity.
  - unfold Service.quick_scan, try_except.
    destruct (Service.quick_scan_try proc req w) as [[r | e] w1];
      do 2 eexists; reflexivity.
  - intros resp w' H H500.
    apply analyze_residue_ok_inv in H. destruct H as [H | [_ H]]; [| exact H].
    apply analyze_residue_try_inv in H.
    destruct H as [[Hc _] | [Hc _]]; rewrite H500 in Hc; discriminate Hc.
  - intros resp w' H H500.
    apply quick_scan_ok_inv in H. destruct H as [H | [_ H]]; [| exact H].
    apply quick_scan_try_inv in H. destruct H as (? & ? & ? & _ & ->).
    discriminate H500.
Qed.

(** An unhashable device identifier on /analyze, and a body that is a
    list on /quick-scan. *)
Lemma exceptions_become_500_witness :
  (exists w',
      Service.analyze_residue sample_process
        (Body (JObj [("job_id", JInt 7); ("device_id", JList [JInt 1])]))
        zero_tape_world
      = (Ok (mkResponse 500
               (JObj [ ("error",
                        JStr "Analysis failed: unhashable type: 'list'");
                       ("entropy_score", JFloat 0.0);
                       ("recoverable_files", JInt 999);
                       ("residue_status", JStr "ERROR") ])), w')) /\
  (exists w',
      Service.quick_scan sample_process (Body (JList [])) zero_tape_world
      = (Ok (mkResponse 500
               (JObj [ ("error",
                        JStr "Quick scan failed: 'list' object has no attribute 'get'") ])),
         w')).
Proof.
  split; eexists.
  - refine (proj1 (exceptions_become_500 sample_process _ zero_tape_world)
              (TypeError "unhashable type: 'list'") _ _).
    reflexivity.
  - refine (proj1 (proj2 (exceptions_become_500 sample_process _
                            zero_tape_world))
              (AttributeError "'list' object has no attribute 'get'") _ _).
    reflexivity.
Defined.

(** C8. POST /quick-scan with an object body that has no device_id
    answers 200: the scores are those of the device identifier
    "unknown", no sleep is performed and the clock does not move, and the
    body holds entropy_score, recoverable_files and residue_status
    together with scan_progress 100 and estimated_time 0. *)
Theorem quick_scan_defaults_to_unknown
    (proc : Py.process) (fields : list (string * json)) (w : world) :
  Py.assoc "device_id" fields = None ->
  exists e r w1 w2,
    ResidueAnalyzer.calculate_entropy proc (JStr "unknown") w = (Ok e, w1) /\
    ResidueAnalyzer.detect_recoverable_files e w1 = (Ok r, w2) /\
    slept w2 = slept w /\ clock w2 = clock w /\
    Service.quick_scan proc (Body (JObj fields)) w
    = (Ok (mkResponse 200
             (JObj [ ("entropy_score", JFloat e);
                     ("recoverable_files", JInt r);
                     ("residue_status",
                      JStr (status_label
                              (ResidueAnalyzer.determine_residue_status e r)));
                     ("scan_progress", JInt 100);
                     ("estimated_time", JInt 0) ])), w2).
Proof.
  intros Hnone.
  pose proof (quick_scan_run proc fields (Py.str_hash proc "unknown") w)
    as Hrun.
  rewrite Hnone in Hrun. exact (Hrun eq_refl).
Qed.

(** The empty object. *)
Lemma quick_scan_defaults_to_unknown_witness :
  exists e r w1 w2,
    ResidueAnalyzer.calculate_entropy sample_process (JStr "unknown")
      zero_tape_world = (Ok e, w1) /\
    ResidueAnalyzer.detect_recoverable_files e w1 = (Ok r, w2) /\
    slept w2 = slept zero_tape_world /\ clock w2 = clock zero_tape_world /\
    Service.quick_scan sample_process (Body (JObj [])) zero_tape_world
    = (Ok (mkResponse 200
             (JObj [ ("entropy_score", JFloat e);
                     ("recoverable_files", JInt r);
                     ("residue_status",
                      JStr (status_label
                              (ResidueAnalyzer.determine_residue_status e r)));
                     ("scan_progress", JInt 100);
                     ("estimated_time", JInt 0) ])), w2).
Proof.
  apply (quick_scan_defaults_to_unknown sample_process [] zero_tape_world).
  reflexivity.
Defined.

Lemma status_label_clean s : status_label s = "CLEAN" <-> s = CLEAN.
Proof. destruct s; split; intros H; try reflexivity; discriminate H. Qed.

Lemma not_high_residue s :
  s <> HIGH_RESIDUE -> s = CLEAN \/ s = MOSTLY_CLEAN \/ s = SOME_RESIDUE.
Proof. destruct s; intros H; auto. contradiction H. reflexivity. Qed.

(** C9. [calculate_entropy] never returns less than 95.0, so in the
    scoring steps the last branch of [detect_recoverable_files] is never
    taken (the count stays within [0, 10]) and the status is never
    HIGH_RESIDUE: every 200 answer of /analyze and of /quick-scan has a
    residue_status among CLEAN, MOSTLY_CLEAN and SOME_RESIDUE. *)
Theorem high_residue_never_produced (proc : Py.process) :
  (forall device_id h w,
      Py.hash proc device_id = Ok h ->
      exists e, ResidueAnalyzer.calculate_entropy proc device_id w
                = (Ok e, Random.advance w) /\ 95.0 <= e) /\
  (forall device_id w e w',
      ResidueAnalyzer.calculate_entropy proc device_id w = (Ok e, w') ->
      95.0 <= e /\
      forall w1, ResidueAnalyzer.detect_recoverable_files e w1
                 = detect_without_last_branch e w1) /\
  (forall device_id w e r w2,
      scores proc device_id w e r w2 ->
      (0 <= r <= 10)%Z /\
      ResidueAnalyzer.determine_residue_status e r <> HIGH_RESIDUE) /\
  (forall req w resp w',
      (Service.analyze_residue proc req w = (Ok resp, w') \/
       Service.quick_scan proc req w = (Ok resp, w')) ->
      status_code resp = 200%Z ->
      exists s r,
        field (payload resp) "residue_status" = Some (JStr (status_label s)) /\
        (s = CLEAN \/ s = MOSTLY_CLEAN \/ s = SOME_RESIDUE) /\
        field (payload resp) "recoverable_files" = Some (JInt r) /\
        (0 <= r <= 10)%Z).
Proof.
  split; [| split; [| split]].
  - intros device_id h w Hh. eexists.
    split; [apply (calculate_entropy_run _ _ _ _ Hh) |].
    apply (calculate_entropy_range proc device_id w _ _
             (calculate_entropy_run _ _ _ _ Hh)).
  - intros device_id w e w' H.
    destruct (calculate_entropy_range _ _ _ _ _ H) as [Hlo _].
    split; [exact Hlo |]. intros w1. apply detect_on_scored_entropy, Hlo.
  - intros device_id w e r w2 H.
    destruct (scores_facts _ _ _ _ _ _ H) as (_ & _ & Hr & _ & Hs). auto.
  - intros req w resp w' H H200.
    assert (Hb : exists e r, scored_body proc (payload resp) e r).
    { destruct H as [H | H];
        [exact (analyze_residue_200 _ _ _ _ _ H H200)
        | exact (quick_scan_200 _ _ _ _ _ H H200)]. }
    destruct Hb as (e & r & (device_id & wa & wb & Hsc) & _ & Hr & Hs).
    destruct (scores_facts _ _ _ _ _ _ Hsc) as (_ & _ & Hrr & _ & Hnh).
    exists (ResidueAnalyzer.determine_residue_status e r), r.
    split; [exact Hs |]. split; [exact (not_high_residue _ Hnh) |].
    split; [exact Hr | exact Hrr].
Qed.

(** C10. In the scoring steps the status is CLEAN exactly when the
    entropy is at least 99.8: from 99.8 up the count is exactly 0 and the
    CLEAN branch fires, and below 99.8 no count, not even 0, gives CLEAN.
    So in every 200 answer of /analyze and of /quick-scan the
    residue_status is "CLEAN" exactly when entropy_score is at least
    99.8. *)
Theorem clean_iff_entropy_at_least_998 (proc : Py.process) :
  (forall e w,
      99.8 <= e ->
      ResidueAnalyzer.detect_recoverable_files e w = (Ok 0%Z, w) /\
      ResidueAnalyzer.determine_residue_status e 0 = CLEAN) /\
  (forall e r,
      e < 99.8 -> ResidueAnalyzer.determine_residue_status e r <> CLEAN) /\
  (forall device_id w e r w2,
      scores proc device_id w e r w2 ->
      (ResidueAnalyzer.determine_residue_status e r = CLEAN <-> 99.8 <= e)) /\
  (forall req w resp w',
      (Service.analyze_residue proc req w = (Ok resp, w') \/
       Service.quick_scan proc req w = (Ok resp, w')) ->
      status_code resp = 200%Z ->
      exists e s,
        field (payload resp) "entropy_score" = Some (JFloat e) /\
        field (payload resp) "residue_status" = Some (JStr s) /\
        (s = "CLEAN" <-> 99.8 <= e)).
Proof.
  split; [| split; [| split]].
  - intros e w He.
    unfold ResidueAnalyzer.detect_recoverable_files,
      ResidueAnalyzer.determine_residue_status.
    threshold_cases; try contradiction; split; reflexivity.
  - intros e r He. unfold ResidueAnalyzer.determine_residue_status.
    threshold_cases; try discriminate; exfalso; lra.
  - intros device_id w e r w2 H.
    destruct (scores_facts _ _ _ _ _ _ H) as (_ & _ & _ & Hc & _). exact Hc.
  - intros req w resp w' H H200.
    assert (Hb : exists e r, scored_body proc (payload resp) e r).
    { destruct H as [H | H];
        [exact (analyze_residue_200 _ _ _ _ _ H H200)
        | exact (quick_scan_200 _ _ _ _ _ H H200)]. }
    destruct Hb as (e & r & (device_id & wa & wb & Hsc) & He & _ & Hs).
    destruct (scores_facts _ _ _ _ _ _ Hsc) as (_ & _ & _ & Hc & _).
    exists e, (status_label (ResidueAnalyzer.determine_residue_status e r)).
    split; [exact He |]. split; [exact Hs |].
    rewrite status_label_clean. exact Hc.
Qed.

(** ** get_data_patterns *)

Lemma pattern_step_run i patterns w :
  exists p,
    Service.pattern_step i patterns w
    = (Ok (patterns ++ [p])%list,
       Random.advance (Random.advance (Random.advance w))) /\
    pattern_point i p.
Proof.
  unfold Service.pattern_step.
  rewrite (bind_ok _ _ _ _ _ (uniform_run 0.1 1.0 w)).
  rewrite (bind_ok _ _ _ _ _ (uniform_run 0 100 (Random.advance w))).
  destruct (choice_run "deleted_file" ["metadata"; "free_space"; "encrypted"]
              (Random.advance (Random.advance w))) as (t & Ht & Hin).
  unfold Service.pattern_types at 1.
  rewrite (bind_ok _ _ _ _ _ Ht).
  eexists. split; [reflexivity |].
  destruct (uniform_range 0.1 1.0 w) as [Hd1 Hd2]; [lra |].
  destruct (uniform_range 0 100 (Random.advance w)) as [Hi1 Hi2]; [lra |].
  do 3 eexists. split; [reflexivity |].
  repeat split; try assumption. lra.
Qed.

(** The loop appends one well-formed entry per angle, in order. *)
Lemma pattern_loop_run angles :
  forall acc w,
    exists ps w',
      for_each angles Service.pattern_step acc w = (Ok (acc ++ ps)%list, w') /\
      Forall2 pattern_point angles ps.
Proof.
  induction angles as [| i rest IH]; intros acc w.
  - exists [], w. split; [| constructor].
    cbn. rewrite app_nil_r. reflexivity.
  - destruct (pattern_step_run i acc w) as (p & Hstep & Hp).
    destruct (IH (acc ++ [p])%list
                 (Random.advance (Random.advance (Random.advance w))))
      as (ps & w' & Hloop & Hall).
    exists (p :: ps), w'. split; [| constructor; assumption].
    cbn [for_each]. rewrite (bind_ok _ _ _ _ _ Hstep). rewrite Hloop.
    rewrite <- app_assoc. reflexivity.
Qed.

Lemma NoDup_map_inj {A B} (f : A -> B) (l : list A) :
  (forall a b, f a = f b -> a = b) -> NoDup l -> NoDup (map f l).
Proof.
  intros Hinj. induction 1 as [| x l Hx _ IH]; cbn [map]; constructor.
  - rewrite in_map_iff. intros (y & Hy & Hin).
    apply Hinj in Hy. subst y. exact (Hx Hin).
  - exact IH.
Qed.

Lemma range_length n : length (range n) = n.
Proof. unfold range. rewrite length_map, length_seq. reflexivity. Qed.

Lemma range_NoDup n : NoDup (range n).
Proof.
  unfold range. apply NoDup_map_inj; [| apply seq_NoDup].
  intros a b H. lia.
Qed.

Lemma pattern_points_angles angles ps :
  Forall2 pattern_point angles ps ->
  map (fun p => field p "angle") ps = map (fun i => Some (JInt i)) angles.
Proof.
  induction 1 as [| i p angles ps Hp _ IH]; [reflexivity |].
  cbn [map]. rewrite IH.
  destruct Hp as (d & x & t & -> & _). reflexivity.
Qed.

#[local] Set Warnings "-inexact-float".

(** In binary64 arithmetic too, a random fraction of 0 makes
    [uniform(0.1, 1.0)] return 0.1 itself, and the largest fraction
    below 1 still gives less than 1.0. *)
Lemma uniform_f_end_points :
  PrimFloat.eqb (uniform_f 0.1 1.0 0) 0.1 = true /\
  PrimFloat.ltb (uniform_f 0.1 1.0 0x1.fffffffffffffp-1) 1.0 = true.
Proof. split; vm_compute; reflexivity. Qed.

(** C7, as the code has it.  GET /simulation/patterns answers 200 with
    exactly 360 entries, one per integer degree with the angles 0..359 in
    order (so each angle once), each distance in the closed interval
    [0.1, 1.0], each intensity in [0, 100), each pattern_type one of
    deleted_file, metadata, free_space and encrypted, together with
    scan_radius 1.0 and total_points 360. *)
Theorem get_data_patterns_360_points (w : world) :
  exists ps w',
    Service.get_data_patterns w
    = (Ok (mkResponse 200
             (JObj [ ("patterns", JList ps);
                     ("scan_radius", JFloat 1.0);
                     ("total_points", JInt 360) ])), w') /\
    length ps = 360%nat /\
    Forall2 pattern_point (range 360) ps /\
    map (fun p => field p "angle") ps
    = map (fun i => Some (JInt i)) (range 360) /\
    NoDup (range 360) /\
    (forall i, (i < 360)%nat -> nth_error (range 360) i = Some (Z.of_nat i)).
Proof.
  destruct (pattern_loop_run (range 360) [] w) as (ps & w' & Hloop & Hall).
  assert (Hlen : length ps = 360%nat).
  { rewrite <- (Forall2_length Hall). apply range_length. }
  exists ps, w'. split; [| split; [exact Hlen | split; [exact Hall |]]].
  - unfold Service.get_data_patterns.
    rewrite (bind_ok _ _ _ _ _ Hloop). cbn [app].
    unfold ret, Service.jsonify. rewrite Hlen. reflexivity.
  - split; [exact (pattern_points_angles _ _ Hall) |].
    split; [apply range_NoDup |].
    intros i Hi. unfold range.
    rewrite nth_error_map, nth_error_seq.
    destruct (Nat.ltb_spec i 360); [reflexivity | lia].
Qed.

(** C7 as stated fails at the lower end of the distance: when the random
    fraction is 0 the distance is 0.1 itself, which is not above 0.1. *)
Lemma distance_can_equal_lower_bound :
  exists resp w' ps p d,
    Service.get_data_patterns zero_tape_world = (Ok resp, w') /\
    field (payload resp) "patterns" = Some (JList ps) /\
    nth_error ps 0 = Some p /\
    field p "distance" = Some (JFloat d) /\
    ~ (0.1 < d /\ d <= 1.0).
Proof.
  do 5 eexists.
  split; [vm_compute; reflexivity |].
  split; [reflexivity |].
  split; [reflexivity |].
  split; [reflexivity |].
  intros [H _]. vm_compute in H. discriminate H.
Qed.

(** ** Which answer each request gets *)

(** The status of /analyze: 500 for a body that is not a JSON object,
    400 when a required field is lacking, and otherwise 200 or 500
    according to whether the device identifier can be hashed. *)
Lemma analyze_residue_status proc req w :
  exists resp w',
    Service.analyze_residue proc req w = (Ok resp, w') /\
    status_code resp
    = match req with
      | Body (JObj fields) =>
          if negb (Py.truthy (requested fields "job_id"))
             || negb (Py.truthy (requested fields "device_id"))
          then 400%Z
          else match Py.hash proc (requested fields "device_id") with
               | Ok _ => 200%Z
               | Raise _ => 500%Z
               end
      | _ => 500%Z
      end.
Proof.
  unfold Service.analyze_residue.
  destruct req as [why | data];
    [do 2 eexists; split; reflexivity |].
  destruct data; try (do 2 eexists; split; reflexivity).
  destruct (negb (Py.truthy (requested fields "job_id"))
            || negb (Py.truthy (requested fields "device_id"))) eqn:Hreq.
  - do 2 eexists. split;
      [ apply try_except_ok; rewrite analyze_residue_try_object, Hreq;
        reflexivity
      | reflexivity ].
  - destruct (Py.hash proc (requested fields "device_id")) as [h | ex] eqn:Hh.
    + destruct (analyze_device_total proc (requested fields "job_id") _ _ w Hh)
        as (res & w' & Hres).
      do 2 eexists. split;
        [ apply try_except_ok; rewrite analyze_residue_try_object, Hreq;
          rewrite (bind_ok _ _ _ _ _ Hres); reflexivity
        | reflexivity ].
    + destruct (analyze_device_raise proc (requested fields "job_id") _ _ w Hh)
        as (w' & Hres).
      do 2 eexists. split;
        [ unfold try_except; rewrite analyze_residue_try_object, Hreq;
          rewrite (bind_raise _ _ _ _ _ Hres); reflexivity
        | reflexivity ].
Qed.

(** ** Sample runs *)

Example classify_999_with_5 :
  ResidueAnalyzer.determine_residue_status 99.9 5 = SOME_RESIDUE.
Proof. reflexivity. Qed.

Example classify_below_95 :
  ResidueAnalyzer.determine_residue_status 94.99 0 = HIGH_RESIDUE.
Proof. reflexivity. Qed.

Example health_check_run :
  fst (Service.health_check zero_tape_world)
  = Ok (mkResponse 200
          (JObj [ ("status", JStr "healthy");
                  ("service", JStr "WipeSure AI Residue Analyzer");
                  ("version", JStr "1.0.0") ])).
Proof. reflexivity. Qed.

Example quick_scan_clean_run :
  fst (Service.quick_scan sample_process (Body (JObj [])) high_tape_world)
  = Ok (mkResponse 200
          (JObj [ ("entropy_score", JFloat 100.00);
                  ("recoverable_files", JInt 0);
                  ("residue_status", JStr "CLEAN");
                  ("scan_progress", JInt 100);
                  ("estimated_time", JInt 0) ])).
Proof. vm_compute. reflexivity. Qed.

Example quick_scan_low_run :
  fst (Service.quick_scan sample_process (Body (JObj [])) zero_tape_world)
  = Ok (mkResponse 200
          (JObj [ ("entropy_score", JFloat 95.07);
                  ("recoverable_files", JInt 2);
                  ("residue_status", JStr "SOME_RESIDUE");
                  ("scan_progress", JInt 100);
                  ("estimated_time", JInt 0) ])).
Proof. vm_compute. reflexivity. Qed.

Example analyze_echoes_identifiers :
  let resp :=
    fst (Service.analyze_residue sample_process
           (Body (JObj [("job_id", JStr "j1"); ("device_id", JStr "d1")]))
           zero_tape_world) in
  match resp with
  | Ok r =>
      status_code r = 200%Z /\
      field (payload r) "job_id" = Some (JStr "j1") /\
      field (payload r) "device_id" = Some (JStr "d1") /\
      field (payload r) "entropy_score" = Some (JFloat 95.02)
  | Raise _ => False
  end.
Proof. vm_compute. repeat split. Qed.

(** * Further properties *)

(** ** The classification *)

(** X1. The status never gets worse when the entropy rises with the
    count fixed, and never gets better when a non-negative count rises
    with the entropy fixed. *)
Theorem determine_residue_status_monotone (e1 e2 : Q) (r1 r2 : Z) :
  e1 <= e2 -> (0 <= r1 <= r2)%Z ->
  (rank (ResidueAnalyzer.determine_residue_status e1 r1)
   <= rank (ResidueAnalyzer.determine_residue_status e2 r1))%Z /\
  (rank (ResidueAnalyzer.determine_residue_status e1 r2)
   <= rank (ResidueAnalyzer.determine_residue_status e1 r1))%Z.
Proof.
  intros He Hr. unfold ResidueAnalyzer.determine_residue_status.
  split; threshold_cases; cbn [rank]; first [lia | exfalso; lra].
Qed.

(** From 98.5 with 1 file to 99.5 with 1 file, and from 1 file to 4. *)
Lemma determine_residue_status_monotone_witness :
  (rank (ResidueAnalyzer.determine_residue_status 98.5 1)
   <= rank (ResidueAnalyzer.determine_residue_status 99.5 1))%Z /\
  (rank (ResidueAnalyzer.determine_residue_status 98.5 4)
   <= rank (ResidueAnalyzer.determine_residue_status 98.5 1))%Z.
Proof.
  apply (determine_residue_status_monotone 98.5 99.5 1 4); [lra | lia].
Defined.

Lemma detect_recoverable_files_piecewise_cases e w :
  exists r w',
    ResidueAnalyzer.detect_recoverable_files e w = (Ok r, w') /\
    ((99.8 <= e /\ r = 0%Z) \/
     (~ 99.8 <= e /\ 99.0 <= e /\ (0 <= r <= 2)%Z) \/
     (~ 99.0 <= e /\ 95.0 <= e /\ (2 <= r <= 10)%Z) \/
     (~ 95.0 <= e /\ (10 <= r <= 50)%Z)).
Proof.
  unfold ResidueAnalyzer.detect_recoverable_files.
  threshold_cases; try rewrite randint_run; do 2 eexists;
    (split; [reflexivity |]).
  - left. auto.
  - right. left. pose proof (randint_range 0 2 w ltac:(lia)). auto.
  - right. right. left. pose proof (randint_range 2 10 w ltac:(lia)). auto.
  - right. right. right. pose proof (randint_range 10 50 w ltac:(lia)). auto.
Qed.

(** X2. Whatever count [detect_recoverable_files] draws for an entropy,
    the status computed from the two is the one the entropy band alone
    gives: the random count never changes the label. *)
Theorem status_follows_entropy_band (e : Q) (w : world) :
  exists r w',
    ResidueAnalyzer.detect_recoverable_files e w = (Ok r, w') /\
    ResidueAnalyzer.determine_residue_status e r = status_of_entropy e.
Proof.
  destruct (detect_recoverable_files_piecewise_cases e w)
    as (r & w' & Hrun & Hcases).
  exists r, w'. split; [exact Hrun |].
  unfold ResidueAnalyzer.determine_residue_status, status_of_entropy.
  destruct Hcases as [[? ?] | [(? & ? & ?) | [(? & ? & ?) | [? ?]]]];
    threshold_cases; first [reflexivity | exfalso; lra | exfalso; lia].
Qed.

(** ** The full analysis *)

Lemma uniform_inv a b w x w' :
  a < b ->
  Random.uniform a b w = (Ok x, w') ->
  a <= x /\ x < b /\ x = a + (b - a) * unit_draw w /\ w' = Random.advance w.
Proof.
  intros Hab H. rewrite uniform_run in H.
  destruct (uniform_range a b w Hab) as [Hlo Hhi].
  injection H as <- <-. auto.
Qed.

Lemma detect_inv_world e w r w2 :
  ResidueAnalyzer.detect_recoverable_files e w = (Ok r, w2) ->
  slept w2 = slept w /\ clock w2 = clock w.
Proof.
  intros H.
  destruct (detect_recoverable_files_total e w) as (r' & w2' & H' & Hs & Hc & _).
  rewrite H in H'. injection H' as _ <-. auto.
Qed.

Lemma calculate_entropy_inv_world proc device_id w e w' :
  ResidueAnalyzer.calculate_entropy proc device_id w = (Ok e, w') ->
  w' = Random.advance w.
Proof.
  intros H. destruct (Py.hash proc device_id) as [h | ex] eqn:Hh.
  - rewrite (calculate_entropy_run _ _ _ _ Hh) in H. injection H as _ <-.
    reflexivity.
  - rewrite (calculate_entropy_raise _ _ _ _ Hh) in H. discriminate H.
Qed.

(** Every result of [analyze_device] has the eight fields in order, with
    each value in its range, and is stamped after the sleep. *)
Lemma analyze_device_shape proc job_id device_id w res w' :
  ResidueAnalyzer.analyze_device proc job_id device_id w = (Ok res, w') ->
  analysis_result job_id device_id (clock w + 2) res.
Proof.
  intros H. pose proof H as Hrun.
  unfold ResidueAnalyzer.analyze_device in H.
  split_bind H d w1 Hd. split_bind H u w2 Hs.
  split_bind H e w3 He. split_bind H r w4 Hr.
  split_bind H sectors w5 H5. split_bind H found w6 H6.
  split_bind H enc w7 H7. split_bind H traces w8 H8.
  split_bind H remnants w9 H9. split_bind H t w10 H10.
  split_bind H conf w11 H11.
  apply ret_inv in H. destruct H as [-> _].
  apply uniform_inv in Hd; [| lra]. destruct Hd as (Hd1 & _ & _ & ->).
  rewrite sleep_run in Hs. injection Hs as <-.
  assert (Hsc : scores proc device_id w2 e r w4) by (exists w3; auto).
  destruct (scores_facts _ _ _ _ _ _ Hsc) as (He1 & He2 & Hr1 & _ & _).
  apply calculate_entropy_inv_world in He.
  apply detect_inv_world in Hr. destruct Hr as [_ Hclock].
  apply randint_inv in H5; [| lia]. destruct H5 as [H5 ->].
  apply randint_inv in H6; [| lia]. destruct H6 as [H6 ->].
  destruct (choice_run true [false] (Random.advance (Random.advance w4)))
    as (enc' & Henc & _).
  rewrite H7 in Henc. injection Henc as _ ->.
  apply randint_inv in H8; [| lia]. destruct H8 as [H8 ->].
  apply randint_inv in H9; [| lia]. destruct H9 as [H9 ->].
  unfold Time.time in H10. injection H10 as <- <-.
  apply uniform_inv in H11; [| lra]. destruct H11 as (Hc1 & Hc2 & _ & _).
  exists e, r. do 3 eexists.
  split; [reflexivity |].
  split; [exact He1 |]. split; [exact He2 |]. split; [exact Hr1 |].
  split.
  { exists sectors, found, enc, traces, remnants. auto. }
  split; [| split; [assumption | lra]].
  cbn [clock Random.advance]. rewrite Hclock. subst w3 w2.
  cbn [clock Random.advance Time.after_sleep]. lra.
Qed.

(** X3. For a device identifier that can be hashed, [analyze_device]
    returns a result: the eight fields in the order of the source, job_id
    and device_id echoed unchanged, entropy_score in [95, 100],
    recoverable_files in [0, 10], the residue_status of those two, the
    five counters of analysis_details in their ranges (sectors
    1000000..5000000, patterns 0..100, metadata 0..50, signatures 0..20),
    a timestamp at least 2 seconds after the call and confidence_level in
    [95.0, 99.9]. *)
Theorem analyze_device_returns_full_result
    (proc : Py.process) (job_id device_id : json) (h : Z) (w : world) :
  Py.hash proc device_id = Ok h ->
  exists res w',
    ResidueAnalyzer.analyze_device proc job_id device_id w = (Ok res, w') /\
    analysis_result job_id device_id (clock w + 2) res.
Proof.
  intros Hh.
  destruct (analyze_device_total proc job_id device_id h w Hh)
    as (res & w' & Hrun).
  exists res, w'. split; [exact Hrun |].
  exact (analyze_device_shape _ _ _ _ _ _ Hrun).
Qed.

(** A numeric job on a string device. *)
Lemma analyze_device_returns_full_result_witness :
  exists res w',
    ResidueAnalyzer.analyze_device sample_process (JInt 17) (JStr "sda")
      zero_tape_world = (Ok res, w') /\
    analysis_result (JInt 17) (JStr "sda") (clock zero_tape_world + 2) res.
Proof.
  apply (analyze_device_returns_full_result sample_process
           (JInt 17) (JStr "sda") 3 zero_tape_world).
  reflexivity.
Defined.

(** ** Validation on /analyze *)

Lemma truthy_false_iff v : Py.truthy v = false <-> falsy_value v.
Proof.
  unfold falsy_value. split.
  - destruct v as [| b | n | x | s | items | fields]; cbn; intros H.
    + auto.
    + subst b. auto.
    + apply negb_false_iff, Z.eqb_eq in H. subst n. auto.
    + apply negb_false_iff, Qeq_bool_iff in H. right. right. right. left.
      exists x. auto.
    + apply negb_false_iff, String.eqb_eq in H. subst s. tauto.
    + destruct items; [tauto | discriminate H].
    + destruct fields; [tauto | discriminate H].
  - intros [-> | [-> | [-> | [(x & -> & Hx) | [-> | [-> | ->]]]]]];
      try reflexivity.
    cbn. apply negb_false_iff, Qeq_bool_iff. exact Hx.
Qed.

Lemma requested_falsy_iff fields key :
  Py.truthy (requested fields key) = false <->
  Py.assoc key fields = None \/
  exists v, Py.assoc key fields = Some v /\ falsy_value v.
Proof.
  unfold requested. destruct (Py.assoc key fields) as [v |].
  - rewrite truthy_false_iff. split.
    + intros H. right. exists v. auto.
    + intros [H | (v' & H & Hv)]; [discriminate H |].
      injection H as <-. exact Hv.
  - split; [auto | reflexivity].
Qed.

(** X4. POST /analyze with an object body answers 400 exactly when
    job_id or device_id is absent or holds one of the JSON values Python
    counts as false: null, false, 0, 0.0, the empty string, the empty
    list or the empty object.  So a present job_id of 0 is rejected like
    a missing one. *)
Theorem analyze_400_iff_absent_or_falsy
    (proc : Py.process) (fields : list (string * json)) (w : world) :
  exists resp w',
    Service.analyze_residue proc (Body (JObj fields)) w = (Ok resp, w') /\
    (status_code resp = 400%Z <->
     (Py.assoc "job_id" fields = None \/
      exists v, Py.assoc "job_id" fields = Some v /\ falsy_value v) \/
     (Py.assoc "device_id" fields = None \/
      exists v, Py.assoc "device_id" fields = Some v /\ falsy_value v)).
Proof.
  destruct (analyze_residue_status proc (Body (JObj fields)) w)
    as (resp & w' & Hrun & Hstatus).
  exists resp, w'. split; [exact Hrun |].
  rewrite <- !requested_falsy_iff, Hstatus.
  destruct (Py.truthy (requested fields "job_id"));
    destruct (Py.truthy (requested fields "device_id")); cbn [negb orb];
    try (split; [auto | reflexivity]).
  destruct (Py.hash proc (requested fields "device_id"));
    (split; [discriminate | intros [H | H]; discriminate H]).
Qed.

(** ** The answers of /analyze *)

Lemma status_label_not_error s : status_label s <> "ERROR".
Proof. destruct s; discriminate. Qed.

(** X5. Every answer of POST /analyze has one of three shapes.  It is
    200 with a full analysis result echoing the requested identifiers,
    exactly for an object body with both fields given and a hashable
    device_id; such a body has no error field, an entropy_score of at
    least 95 and never the values 999 or "ERROR" of the failure body.  It
    is 400 with the error message alone and nothing else done, exactly
    for an object body lacking a field.  It is 500 with the failure body
    otherwise, that is for a body that is not an object or a device_id
    that cannot be hashed. *)
Theorem analyze_answer_shapes (proc : Py.process) (req : request) (w : world) :
  exists resp w',
    Service.analyze_residue proc req w = (Ok resp, w') /\
    ((status_code resp = 200%Z /\
      exists fields h,
        req = Body (JObj fields) /\ both_given fields = true /\
        Py.hash proc (requested fields "device_id") = Ok h /\
        analysis_result (requested fields "job_id")
          (requested fields "device_id") (clock w + 2) (payload resp) /\
        field (payload resp) "error" = None /\
        field (payload resp) "recoverable_files" <> Some (JInt 999) /\
        field (payload resp) "residue_status" <> Some (JStr "ERROR")) \/
     (status_code resp = 400%Z /\
      exists fields,
        req = Body (JObj fields) /\ both_given fields = false /\
        payload resp
        = JObj [ ("error",
                  JStr "Missing required parameters: job_id and device_id") ] /\
        w' = w) \/
     (status_code resp = 500%Z /\
      (exists msg,
         payload resp
         = JObj [ ("error", JStr ("Analysis failed: " ++ msg));
                  ("entropy_score", JFloat 0.0);
                  ("recoverable_files", JInt 999);
                  ("residue_status", JStr "ERROR") ]) /\
      match req with
      | Body (JObj fields) =>
          both_given fields = true /\
          exists ex, Py.hash proc (requested fields "device_id") = Raise ex
      | _ => True
      end)).
Proof.
  unfold Service.analyze_residue.
  destruct req as [why | data].
  { do 2 eexists. split; [reflexivity |]. right. right.
    split; [reflexivity |]. split; [eexists; reflexivity | exact I]. }
  destruct data;
    try (do 2 eexists; split; [reflexivity |]; right; right;
         split; [reflexivity |]; split; [eexists; reflexivity | exact I]).
  destruct (both_given fields) eqn:Hgiven.
  - assert (Hreq : negb (Py.truthy (requested fields "job_id"))
                   || negb (Py.truthy (requested fields "device_id")) = false).
    { unfold both_given in Hgiven. apply andb_true_iff in Hgiven.
      destruct Hgiven as [-> ->]. reflexivity. }
    destruct (Py.hash proc (requested fields "device_id")) as [h | ex] eqn:Hh.
    + destruct (analyze_device_total proc (requested fields "job_id") _ _ w Hh)
        as (res & w' & Hres).
      pose proof (analyze_device_shape _ _ _ _ _ _ Hres) as Hshape.
      exists (Service.jsonify res), w'. split.
      { apply try_except_ok. rewrite analyze_residue_try_object, Hreq.
        rewrite (bind_ok _ _ _ _ _ Hres). reflexivity. }
      left. split; [reflexivity |].
      exists fields, h. repeat split; try assumption;
        destruct Hshape as (e & r & details & t & conf & -> & _ & _ & Hr & _).
      * reflexivity.
      * cbn. intros Heq. injection Heq as Heq. lia.
      * cbn. intros Heq. injection Heq as Heq.
        exact (status_label_not_error _ Heq).
    + destruct (analyze_device_raise proc (requested fields "job_id") _ _ w Hh)
        as (w' & Hres).
      do 2 eexists. split.
      { unfold try_except. rewrite analyze_residue_try_object, Hreq.
        rewrite (bind_raise _ _ _ _ _ Hres). reflexivity. }
      right. right. split; [reflexivity |].
      split; [eexists; reflexivity |]. split; [reflexivity |].
      exists ex. reflexivity.
  - assert (Hreq : negb (Py.truthy (requested fields "job_id"))
                   || negb (Py.truthy (requested fields "device_id")) = true).
    { unfold both_given in Hgiven. apply andb_false_iff in Hgiven.
      destruct Hgiven as [-> | ->]; [reflexivity | apply orb_true_r]. }
    do 2 eexists. split.
    { apply try_except_ok. rewrite analyze_residue_try_object, Hreq.
      reflexivity. }
    right. left. split; [reflexivity |].
    exists fields. repeat split. exact Hgiven.
Qed.

(** ** The answers of /quick-scan *)

(** The entropy is one of the 501 hundredths from 95.00 to 100.00. *)
Lemma calculate_entropy_grid proc device_id w e w' :
  ResidueAnalyzer.calculate_entropy proc device_id w = (Ok e, w') ->
  exists k, e == inject_Z k * (1 # 100) /\ (9500 <= k <= 10000)%Z.
Proof.
  intros H. destruct (Py.hash proc device_id) as [h | ex] eqn:Hh.
  2: { rewrite (calculate_entropy_raise _ _ _ _ Hh) in H. discriminate H. }
  rewrite (calculate_entropy_run _ _ _ _ Hh) in H. injection H as <- _.
  destruct (uniform_range 95.0 100.0 w) as [Hb _]; [lra |].
  destruct (device_factor_range h) as [Hd _].
  set (x := Py.min 100.0 _).
  assert (Hx : 95.0 <= x /\ x <= 100.0).
  { subst x. apply (min_bounds 100.0 _ 95.0); lra. }
  exists (Py.round_half_even (x * 100)).
  split; [apply round_2_hundredths |]. split.
  - apply round_half_even_lower. change (inject_Z 9500) with 9500. lra.
  - apply round_half_even_upper. change (inject_Z 10000) with 10000. lra.
Qed.

(** X6. POST /quick-scan never validates and never answers 400.  A body
    that is not an object, or cannot be decoded, gives 500 at once, the
    error text carrying the reason and nothing else being done.  An
    object body is scored on its device_id, whatever value that is
    (the empty string and null included) or on "unknown" when absent: 200
    with exactly the five fields, the entropy a hundredth between 95.00
    and 100.00 and the count in [0, 10], unless the identifier cannot be
    hashed, which gives 500 with the exception text. *)
Theorem quick_scan_answers (proc : Py.process) (req : request) (w : world) :
  exists resp w',
    Service.quick_scan proc req w = (Ok resp, w') /\
    match req with
    | Undecodable why =>
        resp = mkResponse 500
                 (JObj [ ("error", JStr ("Quick scan failed: " ++ why)) ]) /\
        w' = w
    | Body (JObj fields) =>
        match Py.hash proc (scanned_device fields) with
        | Ok _ => status_code resp = 200%Z /\ quick_scan_result (payload resp)
        | Raise ex =>
            resp = mkResponse 500
                     (JObj [ ("error",
                              JStr ("Quick scan failed: " ++ str_exn ex)) ])
        end
    | Body data =>
        resp = mkResponse 500
                 (JObj [ ("error",
                          JStr ("Quick scan failed: '" ++ Py.type_name data
                                ++ "' object has no attribute 'get'")) ]) /\
        w' = w
    end.
Proof.
  destruct req as [why | data];
    [do 2 eexists; split; [reflexivity | split; reflexivity] |].
  destruct data;
    try (do 2 eexists; split; [reflexivity | split; reflexivity]).
  unfold scanned_device.
  destruct (Py.hash proc _) as [h | ex] eqn:Hh.
  - destruct (quick_scan_run proc fields h w Hh)
      as (e & r & w1 & w2 & He & Hr & _ & _ & Hrun).
    do 2 eexists. split; [exact Hrun |]. split; [reflexivity |].
    destruct (calculate_entropy_grid _ _ _ _ _ He) as (k & Hk & Hrange).
    assert (Hsc : scores proc
                    (match Py.assoc "device_id" fields with
                     | Some v => v
                     | None => JStr "unknown"
                     end) w e r w2) by (exists w1; auto).
    destruct (scores_facts _ _ _ _ _ _ Hsc) as (_ & _ & Hrr & _).
    exists e, r, k. auto.
  - do 2 eexists. split; [| reflexivity].
    unfold Service.quick_scan, try_except, Service.quick_scan_try.
    cbn [Service.get_json]. rewrite bind_ret.
    cbn [Py.get]. rewrite bind_lift_ok.
    rewrite (bind_raise _ _ _ _ _ (calculate_entropy_raise _ _ _ w Hh)).
    reflexivity.
Qed.

(** ** Where the time goes *)

(** In binary64 the largest random fraction makes [uniform(2, 5)] and
    [uniform(95.0, 99.9)] return their upper end, so the ranges of the
    sleep and of confidence_level are closed above. *)
Lemma uniform_f_upper_end_reached :
  PrimFloat.eqb (uniform_f 2 5 0x1.fffffffffffffp-1) 5 = true /\
  PrimFloat.eqb (uniform_f 95.0 99.9 0x1.fffffffffffffp-1) 99.9 = true.
Proof. split; vm_compute; reflexivity. Qed.

Lemma pattern_loop_world angles :
  forall acc w,
    slept (snd (for_each angles Service.pattern_step acc w)) = slept w /\
    clock (snd (for_each angles Service.pattern_step acc w)) = clock w.
Proof.
  induction angles as [| i rest IH]; intros acc w; [split; reflexivity |].
  destruct (pattern_step_run i acc w) as (p & Hstep & _).
  cbn [for_each]. rewrite (bind_ok _ _ _ _ _ Hstep).
  destruct (IH (acc ++ [p])%list
               (Random.advance (Random.advance (Random.advance w))))
    as [Hs Hc].
  rewrite Hs, Hc. split; reflexivity.
Qed.

(** X7. No endpoint but /analyze ever sleeps or moves the clock:
    /quick-scan on every request, failing ones included,
    /simulation/patterns and /health leave both as they were, and /health
    does not touch the random generator either. *)
Theorem only_analyze_sleeps (proc : Py.process) (req : request) (w : world) :
  (slept (snd (Service.quick_scan proc req w)) = slept w /\
   clock (snd (Service.quick_scan proc req w)) = clock w) /\
  (slept (snd (Service.get_data_patterns w)) = slept w /\
   clock (snd (Service.get_data_patterns w)) = clock w) /\
  snd (Service.health_check w) = w.
Proof.
  split; [| split; [| reflexivity]].
  - destruct req as [why | data]; [split; reflexivity |].
    destruct data; try (split; reflexivity).
    destruct (Py.hash proc (scanned_device fields)) as [h | ex] eqn:Hh.
    + destruct (quick_scan_run proc fields h w Hh)
        as (e & r & w1 & w2 & _ & _ & Hs & Hc & Hrun).
      rewrite Hrun. cbn [snd]. auto.
    + unfold Service.quick_scan, try_except, Service.quick_scan_try.
      cbn [Service.get_json]. rewrite bind_ret.
      cbn [Py.get]. rewrite bind_lift_ok.
      rewrite (bind_raise _ _ _ _ _ (calculate_entropy_raise _ _ _ w Hh)).
      split; reflexivity.
  - unfold Service.get_data_patterns, bind.
    pose proof (pattern_loop_world (range 360) [] w) as Hw.
    destruct (for_each (range 360) Service.pattern_step [] w)
      as [[ps | ex] w']; exact Hw.
Qed.

(** X8. POST /analyze sleeps exactly once, for at least 2 and at most
    5 seconds, whenever the body is an object with both fields given,
    also when the answer is then 500 because the device_id cannot be
    hashed; in every other case it answers without sleeping and leaves
    the world untouched. *)
Theorem analyze_sleeps_iff_both_given
    (proc : Py.process) (req : request) (w : world) :
  match req with
  | Body (JObj fields) =>
      if both_given fields then
        exists d,
          slept (snd (Service.analyze_residue proc req w)) = d :: slept w /\
          2 <= d /\ d <= 5
      else snd (Service.analyze_residue proc req w) = w
  | _ => snd (Service.analyze_residue proc req w) = w
  end.
Proof.
  destruct req as [why | data]; [reflexivity |].
  destruct data; try reflexivity.
  unfold Service.analyze_residue, try_except.
  rewrite analyze_residue_try_object. unfold both_given.
  destruct (Py.truthy (requested fields "job_id"));
    destruct (Py.truthy (requested fields "device_id"));
    cbn [negb orb andb]; try reflexivity.
  destruct (analyze_device_sleeps proc (requested fields "job_id")
              (requested fields "device_id") w) as (d & Hd & Hrange).
  exists d. split; [| split; lra].
  unfold bind.
  destruct (ResidueAnalyzer.analyze_device proc _ _ w) as [[res | ex] w'];
    exact Hd.
Qed.

(** ** How the entropy depends on its two summands *)

Lemma round_half_even_monotone x y :
  x <= y -> (Py.round_half_even x <= Py.round_half_even y)%Z.
Proof.
  intros Hxy.
  pose proof (Qfloor_resp_le _ _ Hxy) as Hf.
  pose proof (round_half_even_near x) as Hx.
  pose proof (round_half_even_near y) as Hy.
  destruct (Z.eq_dec (Qfloor x) (Qfloor y)) as [E | NE]; [| lia].
  clear Hx Hy. unfold Py.round_half_even. rewrite <- E.
  destruct (Qcompare (x - inject_Z (Qfloor x)) (1 # 2)) eqn:Cx;
    destruct (Qcompare (y - inject_Z (Qfloor x)) (1 # 2)) eqn:Cy;
    try (destruct (Z.even (Qfloor x))); try lia; exfalso;
    first [apply Qeq_alt in Cx | apply Qlt_alt in Cx | apply Qgt_alt in Cx];
    first [apply Qeq_alt in Cy | apply Qlt_alt in Cy | apply Qgt_alt in Cy];
    lra.
Qed.

Lemma round_2_monotone x y : x <= y -> Py.round x 2 <= Py.round y 2.
Proof.
  intros Hxy. rewrite !round_2_hundredths.
  assert (H : (Py.round_half_even (x * 100)
               <= Py.round_half_even (y * 100))%Z).
  { apply round_half_even_monotone. lra. }
  rewrite Zle_Qle in H. lra.
Qed.

Lemma min_monotone a x y : x <= y -> Py.min a x <= Py.min a y.
Proof.
  intros Hxy. unfold Py.min.
  destruct (Qle_bool_spec a x); destruct (Qle_bool_spec a y); lra.
Qed.

Lemma min_le_right a x : Py.min a x <= x.
Proof. unfold Py.min. destruct (Qle_bool_spec a x); lra. Qed.

Lemma device_factor_monotone h1 h2 :
  (h1 mod 100 <= h2 mod 100)%Z ->
  ResidueAnalyzer.device_factor h1 <= ResidueAnalyzer.device_factor h2.
Proof.
  intros H. unfold ResidueAnalyzer.device_factor, Qdiv.
  change (/ 100.0) with (10 # 1000). rewrite Zle_Qle in H. lra.
Qed.

(** X9. With the same random draw, the device whose hash has the larger
    residue modulo 100 never gets the lower entropy, and the two
    entropies differ by at most 1.0. *)
Theorem calculate_entropy_ordered_by_hash_residue
    (proc : Py.process) (d1 d2 : json) (h1 h2 : Z) (w : world) :
  Py.hash proc d1 = Ok h1 -> Py.hash proc d2 = Ok h2 ->
  (h1 mod 100 <= h2 mod 100)%Z ->
  exists e1 e2,
    ResidueAnalyzer.calculate_entropy proc d1 w = (Ok e1, Random.advance w) /\
    ResidueAnalyzer.calculate_entropy proc d2 w = (Ok e2, Random.advance w) /\
    e1 <= e2 /\ e2 <= e1 + 1.
Proof.
  intros H1 H2 Hres.
  do 2 eexists.
  split; [exact (calculate_entropy_run _ _ _ w H1) |].
  split; [exact (calculate_entropy_run _ _ _ w H2) |].
  pose proof (device_factor_monotone _ _ Hres) as Hd.
  destruct (device_factor_range h1) as [Hl1 Hu1].
  destruct (device_factor_range h2) as [Hl2 Hu2].
  set (base := 95.0 + (100.0 - 95.0) * unit_draw w).
  set (f1 := ResidueAnalyzer.device_factor h1) in *.
  set (f2 := ResidueAnalyzer.device_factor h2) in *.
  split.
  - apply round_2_monotone, min_monotone. lra.
  - destruct (round_2_error (Py.min 100.0 (base + f1))) as [E1 _].
    destruct (round_2_error (Py.min 100.0 (base + f2))) as [_ E2].
    assert (Hm : Py.min 100.0 (base + f2)
                 <= Py.min 100.0 (base + f1) + (99 # 100)).
    { assert (Hf : f2 <= 99 # 100).
      { subst f2. unfold ResidueAnalyzer.device_factor, Qdiv.
        change (/ 100.0) with (10 # 1000).
        pose proof (Z.mod_pos_bound h2 100 eq_refl) as Hb.
        assert (Hb' : (h2 mod 100 <= 99)%Z) by lia.
        rewrite Zle_Qle in Hb'. change (inject_Z 99) with 99 in Hb'. lra. }
      unfold Py.min.
      destruct (Qle_bool_spec 100.0 (base + f1));
        destruct (Qle_bool_spec 100.0 (base + f2)); lra. }
    lra.
Qed.

(** The strings "ab" and "abcde" under the length hash. *)
Lemma calculate_entropy_ordered_by_hash_residue_witness :
  exists e1 e2,
    ResidueAnalyzer.calculate_entropy sample_process (JStr "ab")
      zero_tape_world = (Ok e1, Random.advance zero_tape_world) /\
    ResidueAnalyzer.calculate_entropy sample_process (JStr "abcde")
      zero_tape_world = (Ok e2, Random.advance zero_tape_world) /\
    e1 <= e2 /\ e2 <= e1 + 1.
Proof.
  apply (calculate_entropy_ordered_by_hash_residue sample_process
           (JStr "ab") (JStr "abcde") 2 5 zero_tape_world);
    [reflexivity | reflexivity | vm_compute; discriminate].
Defined.

(** X10. The entropy [calculate_entropy] returns lies within a
    hundredth of the clamped sum of base and offset; so it is never more
    than a hundredth below the random base, and it is exactly 100 once
    base plus offset reach 100. *)
Theorem calculate_entropy_close_to_sum
    (proc : Py.process) (device_id : json) (h : Z) (w : world) :
  Py.hash proc device_id = Ok h ->
  exists e,
    ResidueAnalyzer.calculate_entropy proc device_id w
    = (Ok e, Random.advance w) /\
    let base := 95.0 + (100.0 - 95.0) * unit_draw w in
    let sum := base + ResidueAnalyzer.device_factor h in
    Py.min 100.0 sum - (1 # 100) <= e /\
    e <= Py.min 100.0 sum + (1 # 100) /\
    Qmin base 100 - (1 # 100) <= e /\
    (100 <= sum -> e == 100).
Proof.
  intros Hh. eexists.
  split; [exact (calculate_entropy_run _ _ _ w Hh) |].
  cbv zeta.
  set (base := 95.0 + (100.0 - 95.0) * unit_draw w).
  set (f := ResidueAnalyzer.device_factor h).
  destruct (device_factor_range h) as [Hf _]. fold f in Hf.
  destruct (round_2_error (Py.min 100.0 (base + f))) as [E1 E2].
  split; [lra |]. split; [lra |]. split.
  - assert (Hm : Qmin base 100 <= Py.min 100.0 (base + f)).
    { unfold Py.min. destruct (Qle_bool_spec 100.0 (base + f)).
      - pose proof (Q.le_min_r base 100). lra.
      - pose proof (Q.le_min_l base 100). lra. }
    lra.
  - intros Hsum.
    assert (Hmin : Py.min 100.0 (base + f) = 100.0).
    { unfold Py.min. destruct (Qle_bool_spec 100.0 (base + f)); [reflexivity |].
      exfalso. lra. }
    rewrite Hmin. reflexivity.
Qed.

(** The device "sda" on the generator that yields only zeros. *)
Lemma calculate_entropy_close_to_sum_witness :
  exists e,
    ResidueAnalyzer.calculate_entropy sample_process (JStr "sda")
      zero_tape_world = (Ok e, Random.advance zero_tape_world) /\
    let base := 95.0 + (100.0 - 95.0) * unit_draw zero_tape_world in
    let sum := base + ResidueAnalyzer.device_factor 3 in
    Py.min 100.0 sum - (1 # 100) <= e /\
    e <= Py.min 100.0 sum + (1 # 100) /\
    Qmin base 100 - (1 # 100) <= e /\
    (100 <= sum -> e == 100).
Proof.
  apply (calculate_entropy_close_to_sum sample_process (JStr "sda") 3
           zero_tape_world).
  reflexivity.
Defined.

(** ** Bodies that are not objects *)

(** X11. POST /analyze with a JSON body that is not an object (a list, a
    string, a number, true, false or null) is not told that fields are
    missing: it answers 500 with the failure body, the error text naming
    the type that has no [get], and does so at once, without sleeping or
    drawing a random number. *)
Theorem analyze_non_object_body
    (proc : Py.process) (data : json) (w : world) :
  (forall fields, data <> JObj fields) ->
  Service.analyze_residue proc (Body data) w
  = (Ok (mkResponse 500
           (JObj [ ("error",
                    JStr ("Analysis failed: '" ++ Py.type_name data
                          ++ "' object has no attribute 'get'"));
                   ("entropy_score", JFloat 0.0);
                   ("recoverable_files", JInt 999);
                   ("residue_status", JStr "ERROR") ])), w).
Proof.
  intros Hnot.
  destruct data; try reflexivity.
  exfalso. exact (Hnot fields eq_refl).
Qed.

(** A list holding both identifiers. *)
Lemma analyze_non_object_body_witness :
  Service.analyze_residue sample_process
    (Body (JList [JStr "j1"; JStr "d1"])) zero_tape_world
  = (Ok (mkResponse 500
           (JObj [ ("error",
                    JStr "Analysis failed: 'list' object has no attribute 'get'");
                   ("entropy_score", JFloat 0.0);
                   ("recoverable_files", JInt 999);
                   ("residue_status", JStr "ERROR") ])), zero_tape_world).
Proof.
  apply (analyze_non_object_body sample_process
           (JList [JStr "j1"; JStr "d1"]) zero_tape_world).
  intros fields H. discriminate H.
Defined.

(** ** The scores in an answer *)

Lemma scores_bands proc device_id w e r w2 :
  scores proc device_id w e r w2 ->
  ResidueAnalyzer.determine_residue_status e r = status_of_entropy e /\
  (99.8 <= e -> r = 0%Z) /\
  (99.0 <= e -> (r <= 2)%Z) /\
  (e < 99.0 -> (2 <= r)%Z).
Proof.
  intros (w1 & He & Hr).
  destruct (calculate_entropy_range _ _ _ _ _ He) as [Hlo _].
  destruct (detect_recoverable_files_piecewise_cases e w1)
    as (r' & w2' & Hr' & Hcases).
  rewrite Hr in Hr'. injection Hr' as <- _.
  split.
  - unfold ResidueAnalyzer.determine_residue_status, status_of_entropy.
    destruct Hcases as [[? ?] | [(? & ? & ?) | [(? & ? & ?) | [? ?]]]];
      threshold_cases; first [reflexivity | exfalso; lra | exfalso; lia].
  - destruct Hcases as [[? ?] | [(? & ? & ?) | [(? & ? & ?) | [? ?]]]];
      repeat split; intros; first [lia | exfalso; lra].
Qed.

(** X12. In every 200 answer of /analyze and of /quick-scan the
    residue_status can be read off the entropy_score alone: CLEAN from
    99.8 up, MOSTLY_CLEAN from 99.0 up, SOME_RESIDUE below.  The count
    follows the same bands: 0 from 99.8 up, at most 2 from 99.0 up, at
    least 2 below 99.0. *)
Theorem answer_status_read_off_entropy
    (proc : Py.process) (req : request) (w : world)
    (resp : response) (w' : world) :
  Service.analyze_residue proc req w = (Ok resp, w') \/
  Service.quick_scan proc req w = (Ok resp, w') ->
  status_code resp = 200%Z ->
  exists e r,
    field (payload resp) "entropy_score" = Some (JFloat e) /\
    field (payload resp) "recoverable_files" = Some (JInt r) /\
    field (payload resp) "residue_status"
    = Some (JStr (status_label (status_of_entropy e))) /\
    status_of_entropy e <> HIGH_RESIDUE /\
    (99.8 <= e -> r = 0%Z) /\
    (99.0 <= e -> (r <= 2)%Z) /\
    (e < 99.0 -> (2 <= r)%Z).
Proof.
  intros H H200.
  assert (Hb : exists e r, scored_body proc (payload resp) e r).
  { destruct H as [H | H];
      [exact (analyze_residue_200 _ _ _ _ _ H H200)
      | exact (quick_scan_200 _ _ _ _ _ H H200)]. }
  destruct Hb as (e & r & (device_id & wa & wb & Hsc) & He & Hr & Hs).
  destruct (scores_bands _ _ _ _ _ _ Hsc) as (Hst & H1 & H2 & H3).
  destruct (scores_facts _ _ _ _ _ _ Hsc) as (_ & _ & _ & _ & Hnh).
  exists e, r. rewrite <- Hst. auto 10.
Qed.

(** The quick scan of the empty object on the generator of zeros. *)
Lemma answer_status_read_off_entropy_witness :
  exists e r,
    field (JObj [ ("entropy_score", JFloat 95.07);
                  ("recoverable_files", JInt 2);
                  ("residue_status", JStr "SOME_RESIDUE");
                  ("scan_progress", JInt 100);
                  ("estimated_time", JInt 0) ]) "entropy_score"
    = Some (JFloat e) /\
    field (JObj [ ("entropy_score", JFloat 95.07);
                  ("recoverable_files", JInt 2);
                  ("residue_status", JStr "SOME_RESIDUE");
                  ("scan_progress", JInt 100);
                  ("estimated_time", JInt 0) ]) "recoverable_files"
    = Some (JInt r) /\
    field (JObj [ ("entropy_score", JFloat 95.07);
                  ("recoverable_files", JInt 2);
                  ("residue_status", JStr "SOME_RESIDUE");
                  ("scan_progress", JInt 100);
                  ("estimated_time", JInt 0) ]) "residue_status"
    = Some (JStr (status_label (status_of_entropy e))) /\
    status_of_entropy e <> HIGH_RESIDUE /\
    (99.8 <= e -> r = 0%Z) /\
    (99.0 <= e -> (r <= 2)%Z) /\
    (e < 99.0 -> (2 <= r)%Z).
Proof.
  apply (answer_status_read_off_entropy sample_process (Body (JObj []))
           zero_tape_world
           (mkResponse 200
              (JObj [ ("entropy_score", JFloat 95.07);
                      ("recoverable_files", JInt 2);
                      ("residue_status", JStr "SOME_RESIDUE");
                      ("scan_progress", JInt 100);
                      ("estimated_time", JInt 0) ]))
           (snd (Service.quick_scan sample_process (Body (JObj []))
                   zero_tape_world))).
  - right. vm_compute. reflexivity.
  - reflexivity.
Defined.
